(** * gallery_bot: relationship, chat-session and interaction-state engine

    A shallow embedding of [src/gallery_bot.py].  Every handler of the bot
    loads the shared JSON document, mutates the in-memory copy and possibly
    writes it back; here a handler is a function from the persisted document
    (and the per-user [context.user_data]) to the document that is on disk
    when the handler returns, the new [user_data] and the list of messages
    the transport accepted. *)

From Stdlib Require Import String Ascii ZArith List Bool.
From stdpp Require Import base option list gmap strings pretty.

Local Open Scope string_scope.
Local Open Scope list_scope.

(** ** Python strings *)

Module Py.

(** [min(a, b)] keeps [a] unless [b < a]; [max(a, b)] keeps [a] unless
    [b > a].  Strings are compared character by character. *)
Definition min (a b : string) : string := if String.ltb b a then b else a.
Definition max (a b : string) : string := if String.ltb a b then b else a.

Fixpoint lstrip_with (p : ascii -> bool) (s : string) : string :=
  match s with
  | EmptyString => EmptyString
  | String c s' => if p c then lstrip_with p s' else s
  end.

Fixpoint rstrip_with (p : ascii -> bool) (s : string) : string :=
  match s with
  | EmptyString => EmptyString
  | String c s' =>
      match rstrip_with p s' with
      | EmptyString => if p c then EmptyString else String c EmptyString
      | r => String c r
      end
  end.

(** [s.lstrip("@")]: the character [@] is one byte, and that byte occurs
    in the encoding of no other character. *)
Definition lstrip_at (s : string) : string :=
  lstrip_with (Ascii.eqb "@"%char) s.

(** Truthiness of an optional string: [None] and [""] are false. *)
Definition truthy (o : option string) : bool :=
  match o with
  | Some (String _ _) => true
  | _ => false
  end.

End Py.

(** ** The text methods of [str]

    A Python string is kept as the bytes of its UTF-8 encoding.
    Concatenation, equality, [startswith], [replace] with an ASCII pattern
    and the order used by [min] and [max] are the same on the bytes as on
    the characters.  The methods below are not: they follow the Unicode
    tables of the interpreter (case mapping, the white-space property) or
    count characters.  They are taken as given, and nothing is assumed
    about them. *)
Record PyStr := mkPyStr {
  str_lower : string -> string;        (* s.lower() *)
  str_strip : string -> string;        (* s.strip() *)
  str_len : string -> nat;             (* len(s) *)
  str_slice : nat -> string -> string  (* s[:n] *)
}.

(** The four methods on text that is ASCII throughout, where a character
    is a byte, the letters with a lower case are [A] to [Z] and white space
    is the range 9-13, 28-31 and the space.  The examples below are written
    in ASCII and run with these. *)
Module AsciiText.

Definition lower_char (c : ascii) : ascii :=
  let n := nat_of_ascii c in
  if (65 <=? n)%nat && (n <=? 90)%nat then ascii_of_nat (n + 32) else c.

Fixpoint lower (s : string) : string :=
  match s with
  | EmptyString => EmptyString
  | String c s' => String (lower_char c) (lower s')
  end.

Definition is_space (c : ascii) : bool :=
  let n := nat_of_ascii c in
  ((9 <=? n)%nat && (n <=? 13)%nat) || ((28 <=? n)%nat && (n <=? 32)%nat).

Definition strip (s : string) : string :=
  Py.rstrip_with is_space (Py.lstrip_with is_space s).

Definition methods : PyStr :=
  mkPyStr lower strip String.length (String.substring 0).

End AsciiText.

(** ** Insertion-ordered dictionaries

    [data["users"]] is iterated in insertion order when a handle is resolved,
    so it is kept as an association list: assignment to an existing key
    keeps the key's position, assignment to a new key appends. *)

Definition odict (V : Type) : Type := list (string * V).

Fixpoint od_get {V} (k : string) (d : odict V) : option V :=
  match d with
  | [] => None
  | (k', v) :: d' => if String.eqb k' k then Some v else od_get k d'
  end.

Fixpoint od_set {V} (k : string) (v : V) (d : odict V) : odict V :=
  match d with
  | [] => [(k, v)]
  | (k', v') :: d' =>
      if String.eqb k' k then (k', v) :: d' else (k', v') :: od_set k v d'
  end.

Definition od_mem {V} (k : string) (d : odict V) : bool :=
  match od_get k d with Some _ => true | None => false end.

(** [x in l] for a list of ids. *)
Definition mem (x : string) (l : list string) : bool :=
  existsb (String.eqb x) l.

(** ** The pair identifier

    Every gallery access computes
    [gallery_id = f"{min(user_id, friend_id)}_{max(user_id, friend_id)}"]. *)

Definition gallery_id (user_id friend_id : string) : string :=
  Py.min user_id friend_id +:+ "_" +:+ Py.max user_id friend_id.

Fixpoint underscore_free (s : string) : bool :=
  match s with
  | EmptyString => true
  | String c s' => negb (Ascii.eqb c "_"%char) && underscore_free s'
  end.

(** ** The persisted document

    One JSON object with the collections [users], [galleries], [invites],
    [chat_requests], [active_chats] and [banned_users].  Apart from [users]
    every collection is read through [data.get(key, {})] and created on the
    first write, so an absent collection and an empty one are the same
    value here. *)

(** A user record.  [username] may be absent (the readers supply different
    defaults); [friends] and [nicknames] are read with the defaults [[]] and
    [{}] everywhere. *)
Record User := mkUser {
  username : option string;
  friends : list string;
  nicknames : gmap string string
}.

Record Invite := mkInvite {
  from_id : string;
  from_username : string
}.

Record ChatRequest := mkChatRequest {
  to_id : string;
  message_id : Z
}.

Inductive file_type := photo | video | document.

Record Comment := mkComment {
  author : string;
  text : string
}.

Record FileInfo := mkFileInfo {
  type : file_type;
  file_id : string;
  name : string;
  comment : string;
  added_by : string;
  added_date : string;
  local_path : option string;
  comments : list Comment
}.

Record Gallery := mkGallery {
  g_users : list string;
  files : list FileInfo
}.

Record Data := mkData {
  users : odict User;
  galleries : gmap string Gallery;
  invites : gmap string Invite;
  chat_requests : gmap string ChatRequest;
  active_chats : gmap string string;
  banned_users : list string
}.

Definition set_users (v : odict User) (d : Data) : Data :=
  mkData v (galleries d) (invites d) (chat_requests d) (active_chats d)
         (banned_users d).
Definition set_galleries (v : gmap string Gallery) (d : Data) : Data :=
  mkData (users d) v (invites d) (chat_requests d) (active_chats d)
         (banned_users d).
Definition set_invites (v : gmap string Invite) (d : Data) : Data :=
  mkData (users d) (galleries d) v (chat_requests d) (active_chats d)
         (banned_users d).
Definition set_chat_requests (v : gmap string ChatRequest) (d : Data) : Data :=
  mkData (users d) (galleries d) (invites d) v (active_chats d)
         (banned_users d).
Definition set_active_chats (v : gmap string string) (d : Data) : Data :=
  mkData (users d) (galleries d) (invites d) (chat_requests d) v
         (banned_users d).
Definition set_banned_users (v : list string) (d : Data) : Data :=
  mkData (users d) (galleries d) (invites d) (chat_requests d)
         (active_chats d) v.

(** What [load_data] returns when there is no file yet. *)
Definition empty_data : Data := mkData [] ∅ ∅ ∅ ∅ [].

(** [data["users"].get(uid, {}).get("username", dflt)] *)
Definition username_or (dflt : string) (uid : string) (d : Data) : string :=
  match od_get uid (users d) with
  | Some u => default dflt (username u)
  | None => dflt
  end.

(** [data["users"].get(uid, {}).get("friends", [])] *)
Definition friends_of (uid : string) (d : Data) : list string :=
  match od_get uid (users d) with
  | Some u => friends u
  | None => []
  end.

(** ** The interaction cursor

    [context.user_data] of one user.  [waiting_for] takes one of the tags
    below (these are all the values the program assigns) or [None]. *)

Inductive stage :=
| friend_username
| friend_nickname
| file_name
| file_comment
| file
| file_new_comment
| admin_broadcast
| admin_view_user
| admin_ban.

Global Instance stage_eq_dec : EqDecision stage.
Proof. solve_decision. Defined.

Record UserData := mkUserData {
  waiting_for : option stage;
  rename_friend_id : option string;
  file_friend_id : option string;
  ud_file_name : option string;
  ud_file_comment : option string;
  comment_friend_id : option string;
  comment_file_index : option nat;
  admin_viewing_user : option string
}.

Definition empty_user_data : UserData :=
  mkUserData None None None None None None None None.

Definition set_waiting_for (w : option stage) (c : UserData) : UserData :=
  mkUserData w (rename_friend_id c) (file_friend_id c) (ud_file_name c)
             (ud_file_comment c) (comment_friend_id c) (comment_file_index c)
             (admin_viewing_user c).
Definition set_rename_friend_id (v : option string) (c : UserData) : UserData :=
  mkUserData (waiting_for c) v (file_friend_id c) (ud_file_name c)
             (ud_file_comment c) (comment_friend_id c) (comment_file_index c)
             (admin_viewing_user c).
Definition set_file_friend_id (v : option string) (c : UserData) : UserData :=
  mkUserData (waiting_for c) (rename_friend_id c) v (ud_file_name c)
             (ud_file_comment c) (comment_friend_id c) (comment_file_index c)
             (admin_viewing_user c).
Definition set_file_name (v : option string) (c : UserData) : UserData :=
  mkUserData (waiting_for c) (rename_friend_id c) (file_friend_id c) v
             (ud_file_comment c) (comment_friend_id c) (comment_file_index c)
             (admin_viewing_user c).
Definition set_file_comment (v : option string) (c : UserData) : UserData :=
  mkUserData (waiting_for c) (rename_friend_id c) (file_friend_id c)
             (ud_file_name c) v (comment_friend_id c) (comment_file_index c)
             (admin_viewing_user c).
Definition set_comment_target (f : option string) (i : option nat)
    (c : UserData) : UserData :=
  mkUserData (waiting_for c) (rename_friend_id c) (file_friend_id c)
             (ud_file_name c) (ud_file_comment c) f i (admin_viewing_user c).
Definition set_admin_viewing_user (v : option string) (c : UserData) : UserData :=
  mkUserData (waiting_for c) (rename_friend_id c) (file_friend_id c)
             (ud_file_name c) (ud_file_comment c) (comment_friend_id c)
             (comment_file_index c) v.

(** ** Inbound events *)

(** The sender of an update: [effective_user]. *)
Record Sender := mkSender {
  user_id : string;             (* str(update.effective_user.id) *)
  tg_username : option string;  (* user.username *)
  first_name : option string    (* user.first_name *)
}.

(** [get_username]: [user.username or user.first_name or f"user_{user.id}"] *)
Definition get_username (u : Sender) : string :=
  if Py.truthy (tg_username u) then default "" (tg_username u)
  else if Py.truthy (first_name u) then default "" (first_name u)
  else "user_" +:+ user_id u.

(** The payload of a message, as the handlers test it: text first, then
    photo, video, document, voice, sticker. *)
Inductive content :=
| Text (t : string)
| Photo (fid : string) (caption : option string)
| Video (fid : string) (caption : option string)
| Document (fid : string) (caption : option string)
| Voice (fid : string)
| Sticker (fid : string).

(** The buttons that drive the relationship graph, the chat handshake and
    the interaction cursor ([query.data] after the prefix has been cut
    off).  The gallery views, the export and the admin reports are not part
    of this model. *)
Inductive callback :=
| main_menu
| add_friend
| skip_comment (friend_id : string)
| retry_comment (friend_id : string)
| add_file (friend_id : string)
| add_comment (friend_id : string) (file_index : nat)
| accept_invite_cb (from : string)
| decline_invite_cb (from : string)
| rename_friend (friend_id : string)
| start_chat (friend_id : string)
| cancel_chat_request_cb (friend_id : string)
| accept_chat_cb (from : string)
| decline_chat_cb (from : string)
| end_chat_cb (partner_id : string)
| restart
| admin_panel_cb
| admin_broadcast_cb
| admin_view_user_cb
| admin_ban_cb
| admin_back_cb.

(** ** Outbound messages *)

Inductive msg :=
(* start, show_main_menu, show_pending_invites *)
| BannedNotice
| MainMenu (with_admin_button : bool)
| PendingInvite (from from_name : string)
(* prompts *)
| AddFriendPrompt
| RenamePrompt (friend_name : string)
| AddFilePrompt
| FileCommentPrompt
| SendFilePrompt
| AddCommentPrompt
(* handle_friend_username *)
| UserNotFound (handle : string)
| CannotAddSelf
| AlreadyFriends (handle : string)
| InviteNotice (from from_name : string)
| InviteSent (handle : string)
| InviteSendFailed
(* accept_invite, decline_invite *)
| InviteAccepted (from_name : string)
| InviteAcceptedNotice (by_name : string)
| InviteDeclined
(* handle_friend_nickname *)
| NicknameTooLong
| NicknameChanged (nickname : string)
(* handle_file_name, handle_file_comment, handle_file, handle_new_comment *)
| FileNameTooLong (len : nat)
| FileNameAccepted (name : string)
| FileCommentTooLong (len : nat)
| FileCommentSaved
| UnsupportedFileType
| NewFileNotice (by_name : string) (item : FileInfo)
| FileAdded
| CommentTooLong
| FileNotFound
| CommentAdded
(* chat handshake *)
| RequestAlreadyActive (to_name : string)
| ChatAlreadyActive
| ChatRequestNotice (from from_name : string)
| ChatRequestSent (to_name : string)
| ChatRequestFailed
| ChatRequestCancelled (to_name : string)
| ChatRequestStale
| ChatAccepted (from_name : string)
| ChatAcceptedNotice (by_name : string)
| ChatDeclined (from_name : string)
| ChatEnded (partner_name : string)
| ChatEndedNotice (by_name : string)
(* handle_chat_message *)
| ChatMessage (from_name : string) (c : content)
| ChatStickerFile (fid : string)
| RelayFailed
(* admin *)
| AdminPanel
| BroadcastPrompt
| Broadcast (c : content)
| BroadcastStickerFile (fid : string)
| BroadcastDone (success failed : nat)
| AdminViewUserPrompt
| AdminUserNotFound (uid : string)
| AdminUserInfo (uid : string) (u : User) (banned : bool)
| AdminBanPrompt (banned : list string)
| AdminBanToggled (uid : string) (now_banned : bool).

(** What a handler did on the transport.  [Reply] is an answer to the user
    who caused the update ([reply_text], [edit_message_text], an alert);
    [Send] is a [context.bot.send_*] call that the transport accepted;
    [Delete] a [delete_message] that went through; [Unhandled] marks an
    exception that left the handler. *)
Inductive exn := KeyError | TypeError | TelegramError.

Inductive effect :=
| Reply (m : msg)
| Send (chat_id : string) (m : msg)
| Delete (chat_id : string) (mid : Z)
| Unhandled (e : exn).

(** Is this effect a chat message forwarded by the relay? *)
Definition is_relay (e : effect) : bool :=
  match e with
  | Send _ (ChatMessage _ _) | Send _ (ChatStickerFile _) => true
  | _ => false
  end.

Definition hres : Type := Data * UserData * list effect.

(** ** The handlers *)

Section Handlers.

(** The environment of one handler run.  [py] holds the text methods of
    the interpreter.  [ADMIN_ID] comes from the process environment.
    [deliver chat_id] is what a [context.bot.send_*] call to [chat_id]
    does during this run: [Some mid] when the transport
    accepts the message (and numbers it [mid]), [None] when the call
    raises.  [retract] is the same for [delete_message], and
    [cache_locally] for [download_to_drive].  All chats are private, so
    [query.message.chat_id] is the id of the user who pressed the button.
    Answers in the chat of the update ([query.answer],
    [query.edit_message_text], [message.reply_text]) and [get_file] are
    taken to go through. *)
Variable py : PyStr.
Variable ADMIN_ID : string.
Variable deliver : string -> option Z.
Variable retract : string -> Z -> bool.
Variable cache_locally : string -> string -> option string.
Variable today : string.

(** The name shown for a user without a stored handle. *)
Definition drug : string := "друг".

(** [try: await context.bot.send_...(chat_id, m) except: pass] *)
Definition try_send (chat_id : string) (m : msg) : list effect :=
  match deliver chat_id with
  | Some _ => [Send chat_id m]
  | None => []
  end.

(** *** Identity directory *)

Definition is_banned (uid : string) (data : Data) : bool :=
  mem uid (banned_users data).

(** The record written on first contact and on re-registration:
    [{"username": get_username(update), "friends": []}]. *)
Definition fresh_user (u : Sender) : User :=
  mkUser (Some (get_username u)) [] ∅.

Definition show_main_menu (u : Sender) : list effect :=
  [Reply (MainMenu (String.eqb (user_id u) ADMIN_ID))].

Definition show_pending_invites (u : Sender) (data : Data) : list effect :=
  match invites data !! user_id u with
  | Some invite => [Reply (PendingInvite (from_id invite) (from_username invite))]
  | None => show_main_menu u
  end.

(** [/start] *)
Definition start (u : Sender) (data : Data) (ctx : UserData) : hres :=
  if is_banned (user_id u) data then (data, ctx, [Reply BannedNotice])
  else
    let data1 :=
      if od_mem (user_id u) (users data) then data
      else set_users (od_set (user_id u) (fresh_user u) (users data)) data in
    match invites data1 !! user_id u with
    | Some _ => (data1, ctx, show_pending_invites u data1)
    | None => (data1, ctx, show_main_menu u)
    end.

(** The [restart] button: the record is written again from scratch. *)
Definition restart_user (u : Sender) (data : Data) : Data :=
  set_users (od_set (user_id u) (fresh_user u) (users data)) data.

(** The loop of [handle_friend_username] over [data["users"].items()]:
    the first id whose stored handle equals the wanted one, case
    folded. *)
Fixpoint resolve_handle (handle : string) (us : odict User) : option string :=
  match us with
  | [] => None
  | (uid, udata) :: us' =>
      if String.eqb (str_lower py (default "" (username udata))) (str_lower py handle)
      then Some uid
      else resolve_handle handle us'
  end.

(** *** Relationship graph *)

Definition handle_friend_username (u : Sender) (txt : string)
    (data : Data) (ctx : UserData) : hres :=
  if negb (bool_decide (waiting_for ctx = Some friend_username))
  then (data, ctx, [])
  else
    let ctx := set_waiting_for None ctx in
    let handle := Py.lstrip_at (str_strip py txt) in
    let friend_id := resolve_handle handle (users data) in
    if negb (Py.truthy friend_id) then
      (data, ctx, [Reply (UserNotFound handle)])
    else
      let friend_id := default "" friend_id in
      if String.eqb friend_id (user_id u) then
        (data, ctx, [Reply CannotAddSelf])
      else if mem friend_id (friends_of (user_id u) data) then
        (data, ctx, [Reply (AlreadyFriends handle)])
      else
        let data :=
          set_invites (<[friend_id := mkInvite (user_id u) (get_username u)]>
                         (invites data)) data in
        match deliver friend_id with
        | Some _ =>
            (data, ctx,
             [Send friend_id (InviteNotice (user_id u) (get_username u));
              Reply (InviteSent handle)])
        | None => (data, ctx, [Reply InviteSendFailed])
        end.

(** [data["users"][owner].setdefault("friends", []).append(friend)] unless
    [friend] is there already.  Both call sites have just made sure that
    [owner] is a key of [users]. *)
Definition append_friend (owner friend : string) (us : odict User) : odict User :=
  match od_get owner us with
  | Some r =>
      if mem friend (friends r) then us
      else od_set owner (mkUser (username r) (friends r ++ [friend]) (nicknames r)) us
  | None => us
  end.

Definition ensure_user (uid : string) (r : User) (us : odict User) : odict User :=
  if od_mem uid us then us else od_set uid r us.

Definition ensure_gallery (gid : string) (members : list string)
    (gs : gmap string Gallery) : gmap string Gallery :=
  match gs !! gid with
  | Some _ => gs
  | None => <[gid := mkGallery members []]> gs
  end.

(** The document [accept_invite] saves. *)
Definition accept_invite_data (u : Sender) (from : string) (data : Data) : Data :=
  let us := ensure_user (user_id u) (fresh_user u) (users data) in
  let us := ensure_user from (mkUser (Some "unknown") [] ∅) us in
  let us := append_friend (user_id u) from us in
  let us := append_friend from (user_id u) us in
  let gid := gallery_id (user_id u) from in
  let gs := ensure_gallery gid [user_id u; from] (galleries data) in
  mkData us gs (delete (user_id u) (invites data)) (chat_requests data)
         (active_chats data) (banned_users data).

Definition accept_invite (u : Sender) (from : string)
    (data : Data) (ctx : UserData) : hres :=
  let data := accept_invite_data u from data in
  (data, ctx,
   Reply (InviteAccepted (username_or drug from data))
     :: try_send from (InviteAcceptedNotice (get_username u))).

Definition decline_invite (u : Sender) (from : string)
    (data : Data) (ctx : UserData) : hres :=
  (set_invites (delete (user_id u) (invites data)) data, ctx,
   [Reply InviteDeclined]).

(** *** Session handshake *)

Definition start_chat_request (u : Sender) (friend_id : string)
    (data : Data) (ctx : UserData) : hres :=
  let friend_name := username_or drug friend_id data in
  match chat_requests data !! user_id u with
  | Some existing_request =>
      (data, ctx,
       [Reply (RequestAlreadyActive (username_or drug (to_id existing_request) data))])
  | None =>
      if bool_decide (is_Some (active_chats data !! user_id u)) then
        (data, ctx, [Reply ChatAlreadyActive])
      else
        match deliver friend_id with
        | Some mid =>
            (set_chat_requests
               (<[user_id u := mkChatRequest friend_id mid]> (chat_requests data))
               data,
             ctx,
             Send friend_id (ChatRequestNotice (user_id u) (get_username u))
               :: match deliver (user_id u) with
                  | Some _ => [Send (user_id u) (ChatRequestSent friend_name)]
                  | None => [Reply ChatRequestFailed]
                  end)
        | None => (data, ctx, [Reply ChatRequestFailed])
        end
  end.

Definition cancel_chat_request (u : Sender) (friend_id : string)
    (data : Data) (ctx : UserData) : hres :=
  let friend_name := username_or drug friend_id data in
  match chat_requests data !! user_id u with
  | Some chat_request =>
      if String.eqb (to_id chat_request) friend_id then
        (set_chat_requests (delete (user_id u) (chat_requests data)) data, ctx,
         (if retract friend_id (message_id chat_request)
          then [Delete friend_id (message_id chat_request)] else [])
           ++ [Reply (ChatRequestCancelled friend_name)])
      else (data, ctx, [Reply ChatRequestStale])
  | None => (data, ctx, [Reply ChatRequestStale])
  end.

Definition accept_chat (u : Sender) (from : string)
    (data : Data) (ctx : UserData) : hres :=
  let from_name := username_or drug from data in
  let data :=
    mkData (users data) (galleries data) (invites data)
           (delete from (chat_requests data))
           (<[from := user_id u]> (<[user_id u := from]> (active_chats data)))
           (banned_users data) in
  (data, ctx,
   Reply (ChatAccepted from_name)
     :: try_send from (ChatAcceptedNotice (get_username u))).

Definition decline_chat (u : Sender) (from : string)
    (data : Data) (ctx : UserData) : hres :=
  (set_chat_requests (delete from (chat_requests data)) data, ctx,
   [Reply (ChatDeclined (username_or drug from data))]).

Definition end_chat (u : Sender) (partner_id : string)
    (data : Data) (ctx : UserData) : hres :=
  (set_active_chats
     (delete partner_id (delete (user_id u) (active_chats data))) data,
   ctx,
   Reply (ChatEnded (username_or drug partner_id data))
     :: try_send partner_id (ChatEndedNotice (get_username u))).

(** The relay.  The boolean is the handler's return value: [True] when the
    sender has a chat partner, whether or not the forward went through. *)
Definition handle_chat_message (u : Sender) (c : content)
    (data : Data) : bool * list effect :=
  let partner_id := active_chats data !! user_id u in
  if negb (Py.truthy partner_id) then (false, [])
  else
    let partner_id := default "" partner_id in
    let me := get_username u in
    match c with
    | Text "" => (true, [])
    | Sticker fid =>
        match deliver partner_id with
        | Some _ =>
            (true, [Send partner_id (ChatMessage me c);
                    Send partner_id (ChatStickerFile fid)])
        | None => (true, [Reply RelayFailed])
        end
    | _ =>
        match deliver partner_id with
        | Some _ => (true, [Send partner_id (ChatMessage me c)])
        | None => (true, [Reply RelayFailed])
        end
    end.

(** *** Interaction state machine: the prompts *)

Definition add_friend_prompt (data : Data) (ctx : UserData) : hres :=
  (data, set_waiting_for (Some friend_username) ctx, [Reply AddFriendPrompt]).

Definition rename_friend_prompt (friend_id : string)
    (data : Data) (ctx : UserData) : hres :=
  (data,
   set_rename_friend_id (Some friend_id)
     (set_waiting_for (Some friend_nickname) ctx),
   [Reply (RenamePrompt (username_or ("user_" +:+ friend_id) friend_id data))]).

Definition add_file_prompt (friend_id : string)
    (data : Data) (ctx : UserData) : hres :=
  (data,
   set_file_friend_id (Some friend_id) (set_waiting_for (Some file_name) ctx),
   [Reply AddFilePrompt]).

Definition add_comment_prompt (u : Sender) (friend_id : string)
    (file_index : nat) (data : Data) (ctx : UserData) : hres :=
  (data,
   set_comment_target (Some friend_id) (Some file_index)
     (set_waiting_for (Some file_new_comment) ctx),
   match deliver (user_id u) with
   | Some _ => [Send (user_id u) AddCommentPrompt]
   | None => [Unhandled TelegramError]
   end).

(** *** Interaction state machine: the stage handlers *)

Definition handle_friend_nickname (u : Sender) (txt : string)
    (data : Data) (ctx : UserData) : hres :=
  let nickname := str_strip py txt in
  let friend_id := rename_friend_id ctx in
  let ctx := set_waiting_for None ctx in
  if (20 <? str_len py nickname)%nat then
    (data, ctx, [Reply NicknameTooLong])
  else
    match od_get (user_id u) (users data) with
    | None => (data, ctx, [Unhandled KeyError])
    | Some r =>
        let r := mkUser (username r) (friends r)
                   (<[default "null" friend_id := nickname]> (nicknames r)) in
        (set_users (od_set (user_id u) r (users data)) data, ctx,
         [Reply (NicknameChanged nickname)])
    end.

Definition handle_file_name (txt : string)
    (data : Data) (ctx : UserData) : hres :=
  let name := str_strip py txt in
  if (25 <? str_len py name)%nat then
    (data, set_waiting_for None ctx,
     [Reply (FileNameTooLong (str_len py name))])
  else
    (data, set_waiting_for (Some file_comment) (set_file_name (Some name) ctx),
     [Reply (FileNameAccepted name)]).

Definition handle_file_comment (txt : string)
    (data : Data) (ctx : UserData) : hres :=
  let comment := str_strip py txt in
  if (200 <? str_len py comment)%nat then
    (data, set_waiting_for None ctx,
     [Reply (FileCommentTooLong (str_len py comment))])
  else
    (data, set_waiting_for (Some file) (set_file_comment (Some comment) ctx),
     [Reply FileCommentSaved]).

(** The kind and transport handle of an item: photo, then document, then
    video; anything else is refused. *)
Definition classify (c : content) : option (file_type * string) :=
  match c with
  | Photo fid _ => Some (photo, fid)
  | Document fid _ => Some (document, fid)
  | Video fid _ => Some (video, fid)
  | _ => None
  end.

Definition append_file (gid : string) (item : FileInfo)
    (gs : gmap string Gallery) : gmap string Gallery :=
  match gs !! gid with
  | Some g => <[gid := mkGallery (g_users g) (files g ++ [item])]> gs
  | None => gs
  end.

Definition handle_file (u : Sender) (c : content)
    (data : Data) (ctx : UserData) : hres :=
  if negb (bool_decide (waiting_for ctx = Some file)) then (data, ctx, [])
  else
    let ctx := set_waiting_for None ctx in
    let custom_name := default "Без названия" (ud_file_name ctx) in
    let comment := default "" (ud_file_comment ctx) in
    if negb (Py.truthy (file_friend_id ctx)) then (data, ctx, [])
    else
      let friend_id := default "" (file_friend_id ctx) in
      let gid := gallery_id (user_id u) friend_id in
      match classify c with
      | None => (data, ctx, [Reply UnsupportedFileType])
      | Some (ty, fid) =>
          let item :=
            mkFileInfo ty fid custom_name comment (get_username u) today
                       (cache_locally gid fid) [] in
          let gs := ensure_gallery gid [user_id u; friend_id] (galleries data) in
          let data := set_galleries (append_file gid item gs) data in
          (data, set_file_name None (set_file_comment None ctx),
           try_send friend_id (NewFileNotice (get_username u) item)
             ++ [Reply FileAdded])
      end.

(** [files[file_index]["comments"].append(c)] *)
Definition append_comment (i : nat) (c : Comment) (fs : list FileInfo)
    : list FileInfo :=
  match fs !! i with
  | Some f =>
      <[i := mkFileInfo (type f) (file_id f) (name f) (comment f) (added_by f)
               (added_date f) (local_path f) (comments f ++ [c])]> fs
  | None => fs
  end.

Definition handle_new_comment (u : Sender) (txt : string)
    (data : Data) (ctx : UserData) : hres :=
  let comment_text := str_strip py txt in
  let friend_id := comment_friend_id ctx in
  let file_index := comment_file_index ctx in
  let ctx := set_waiting_for None ctx in
  if (150 <? str_len py comment_text)%nat then
    (data, ctx, [Reply CommentTooLong])
  else
    match friend_id, file_index with
    | Some friend_id, Some file_index =>
        let gid := gallery_id (user_id u) friend_id in
        match galleries data !! gid with
        | Some g =>
            if (length (files g) <=? file_index)%nat then
              (data, ctx, [Reply FileNotFound])
            else
              let c := mkComment (get_username u) comment_text in
              let g := mkGallery (g_users g) (append_comment file_index c (files g)) in
              (set_galleries (<[gid := g]> (galleries data)) data, ctx,
               [Reply CommentAdded])
        | None => (data, ctx, [Reply FileNotFound])
        end
    | _, _ => (data, ctx, [Unhandled TypeError])
    end.

(** *** Administrative stages *)

(** One round of the broadcast loop: what is sent to [uid] and whether
    the round counts as a success. *)
Definition broadcast_to (c : content) (uid : string) : bool * list effect :=
  match c with
  | Text "" | Document _ _ | Voice _ => (true, [])
  | Sticker fid =>
      match deliver uid with
      | Some _ => (true, [Send uid (Broadcast c); Send uid (BroadcastStickerFile fid)])
      | None => (false, [])
      end
  | _ =>
      match deliver uid with
      | Some _ => (true, [Send uid (Broadcast c)])
      | None => (false, [])
      end
  end.

Fixpoint broadcast_loop (c : content) (uids : list string)
    (success failed : nat) (out : list effect) : nat * nat * list effect :=
  match uids with
  | [] => (success, failed, out)
  | uid :: uids' =>
      let '(ok, sent) := broadcast_to c uid in
      if ok then broadcast_loop c uids' (S success) failed (out ++ sent)
      else broadcast_loop c uids' success (S failed) (out ++ sent)
  end.

(** [None] stands for the return value [False]: nothing was done. *)
Definition handle_admin_broadcast (u : Sender) (c : content)
    (data : Data) (ctx : UserData) : option hres :=
  if negb (String.eqb (user_id u) ADMIN_ID) then None
  else if negb (bool_decide (waiting_for ctx = Some admin_broadcast)) then None
  else
    let '(success, failed, out) :=
      broadcast_loop c (map fst (users data)) 0 0 [] in
    Some (data, set_waiting_for None ctx,
          out ++ [Reply (BroadcastDone success failed)]).

Definition handle_admin_view_user (txt : string)
    (data : Data) (ctx : UserData) : hres :=
  let user_id_input := str_strip py txt in
  let ctx := set_admin_viewing_user (Some user_id_input) (set_waiting_for None ctx) in
  match od_get user_id_input (users data) with
  | None => (data, ctx, [Reply (AdminUserNotFound user_id_input)])
  | Some r =>
      (data, ctx,
       [Reply (AdminUserInfo user_id_input r (mem user_id_input (banned_users data)))])
  end.

(** [list.remove(x)]: the first occurrence goes. *)
Fixpoint remove_first (x : string) (l : list string) : list string :=
  match l with
  | [] => []
  | y :: l' => if String.eqb x y then l' else y :: remove_first x l'
  end.

Definition handle_admin_ban (txt : string)
    (data : Data) (ctx : UserData) : hres :=
  let user_id_input := str_strip py txt in
  let ctx := set_waiting_for None ctx in
  if mem user_id_input (banned_users data) then
    (set_banned_users (remove_first user_id_input (banned_users data)) data,
     ctx, [Reply (AdminBanToggled user_id_input false)])
  else
    (set_banned_users (banned_users data ++ [user_id_input]) data,
     ctx, [Reply (AdminBanToggled user_id_input true)]).

Definition admin_back (data : Data) (ctx : UserData) : hres :=
  (data, set_waiting_for None ctx, [Reply AdminPanel]).

(** [/admin] *)
Definition admin_panel (u : Sender) (data : Data) (ctx : UserData) : hres :=
  if negb (String.eqb (user_id u) ADMIN_ID) then (data, ctx, [])
  else (data, ctx, [Reply AdminPanel]).

(** The admin buttons do nothing for anybody else. *)
Definition admin_only (u : Sender) (data : Data) (ctx : UserData)
    (r : hres) : hres :=
  if String.eqb (user_id u) ADMIN_ID then r else (data, ctx, []).

(** *** Dispatch *)

Definition button_handler (u : Sender) (cb : callback)
    (data : Data) (ctx : UserData) : hres :=
  match cb with
  | main_menu => (data, ctx, show_main_menu u)
  | admin_panel_cb => admin_only u data ctx (admin_back data ctx)
  | add_friend => add_friend_prompt data ctx
  | skip_comment _ =>
      (data, set_waiting_for (Some file) (set_file_comment (Some "") ctx),
       [Reply SendFilePrompt])
  | retry_comment _ =>
      (data, set_waiting_for (Some file_comment) ctx, [Reply FileCommentPrompt])
  | add_file friend_id => add_file_prompt friend_id data ctx
  | add_comment friend_id file_index =>
      add_comment_prompt u friend_id file_index data ctx
  | accept_invite_cb from => accept_invite u from data ctx
  | decline_invite_cb from => decline_invite u from data ctx
  | rename_friend friend_id => rename_friend_prompt friend_id data ctx
  | start_chat friend_id => start_chat_request u friend_id data ctx
  | cancel_chat_request_cb friend_id => cancel_chat_request u friend_id data ctx
  | accept_chat_cb from => accept_chat u from data ctx
  | decline_chat_cb from => decline_chat u from data ctx
  | end_chat_cb partner_id => end_chat u partner_id data ctx
  | restart => (restart_user u data, ctx, show_main_menu u)
  | admin_broadcast_cb =>
      admin_only u data ctx
        (data, set_waiting_for (Some admin_broadcast) ctx, [Reply BroadcastPrompt])
  | admin_view_user_cb =>
      admin_only u data ctx
        (data, set_waiting_for (Some admin_view_user) ctx, [Reply AdminViewUserPrompt])
  | admin_ban_cb =>
      admin_only u data ctx
        (data, set_waiting_for (Some admin_ban) ctx,
         [Reply (AdminBanPrompt (banned_users data))])
  | admin_back_cb => admin_only u data ctx (admin_back data ctx)
  end.

(** The last step of both message handlers: the relay, if the sender has
    a partner. *)
Definition relay (u : Sender) (c : content) (data : Data) (ctx : UserData) : hres :=
  (data, ctx, snd (handle_chat_message u c data)).

(** Text messages that are not commands. *)
Definition message_handler (u : Sender) (txt : string)
    (data : Data) (ctx : UserData) : hres :=
  match handle_admin_broadcast u (Text txt) data ctx with
  | Some r => r
  | None =>
      let is_admin := String.eqb (user_id u) ADMIN_ID in
      match waiting_for ctx with
      | Some admin_view_user =>
          if is_admin then handle_admin_view_user txt data ctx
          else relay u (Text txt) data ctx
      | Some admin_ban =>
          if is_admin then handle_admin_ban txt data ctx
          else relay u (Text txt) data ctx
      | Some friend_username => handle_friend_username u txt data ctx
      | Some friend_nickname => handle_friend_nickname u txt data ctx
      | Some file_name => handle_file_name txt data ctx
      | Some file_comment => handle_file_comment txt data ctx
      | Some file_new_comment => handle_new_comment u txt data ctx
      | Some file | Some admin_broadcast | None => relay u (Text txt) data ctx
      end
  end.

(** Photos, documents, videos, voice messages and stickers. *)
Definition file_handler (u : Sender) (c : content)
    (data : Data) (ctx : UserData) : hres :=
  match handle_admin_broadcast u c data ctx with
  | Some r => r
  | None =>
      if bool_decide (waiting_for ctx = Some file) then handle_file u c data ctx
      else relay u c data ctx
  end.

(** The entry points registered in [main]. *)
Inductive event :=
| CmdStart
| CmdAdmin
| Button (cb : callback)
| TextMessage (txt : string)
| MediaMessage (c : content).

Definition handle (u : Sender) (e : event) (data : Data) (ctx : UserData) : hres :=
  match e with
  | CmdStart => start u data ctx
  | CmdAdmin => admin_panel u data ctx
  | Button cb => button_handler u cb data ctx
  | TextMessage txt => message_handler u txt data ctx
  | MediaMessage c => file_handler u c data ctx
  end.

End Handlers.

(** ** Reading a handler's result *)

Definition data_of (r : hres) : Data := r.1.1.
Definition ctx_of (r : hres) : UserData := r.1.2.
Definition out_of (r : hres) : list effect := r.2.

(** Did the relay forward something? *)
Definition relays (out : list effect) : bool := existsb is_relay out.

(** [owner] is a registered user whose friend list has [friend]. *)
Definition friend_in (us : odict User) (owner friend : string) : Prop :=
  ∃ r, od_get owner us = Some r ∧ mem friend (friends r) = true.

(** ** The handshake as a transition system

    The five operations of the chat handshake, each run by the user who
    presses the button. *)

Inductive hs_op :=
| Request (a : Sender) (b : string)
| Cancel (a : Sender) (b : string)
| Accept (b : Sender) (a : string)
| Decline (b : Sender) (a : string)
| EndChat (x : Sender) (y : string).

Definition hs_step (deliver : string -> option Z) (retract : string -> Z -> bool)
    (data : Data) (op : hs_op) : Data :=
  match op with
  | Request a b => data_of (start_chat_request deliver a b data empty_user_data)
  | Cancel a b => data_of (cancel_chat_request retract a b data empty_user_data)
  | Accept b a => data_of (accept_chat deliver b a data empty_user_data)
  | Decline b a => data_of (decline_chat b a data empty_user_data)
  | EndChat x y => data_of (end_chat deliver x y data empty_user_data)
  end.

Definition hs_run (deliver : string -> option Z) (retract : string -> Z -> bool)
    (ops : list hs_op) (data : Data) : Data :=
  fold_left (hs_step deliver retract) ops data.

Definition has_request (x : string) (data : Data) : Prop :=
  is_Some (chat_requests data !! x).
Definition has_session (x : string) (data : Data) : Prop :=
  is_Some (active_chats data !! x).

(** No identity holds a chat request and a session at once. *)
Definition at_most_one (data : Data) : Prop :=
  ∀ x, ¬ (has_request x data ∧ has_session x data).

(** The two refusals of [start_chat_request]: the sender has a request
    out already, or is in a chat already. *)
Definition request_refused (out : list effect) : Prop :=
  (∃ to_name, out = [Reply (RequestAlreadyActive to_name)]) ∨
  out = [Reply ChatAlreadyActive].

(** User ids are [str(update.effective_user.id)], so no key of [users] is
    the empty string. *)
Definition ids_nonempty (us : odict User) : bool :=
  forallb (λ p, negb (String.eqb p.1 "")) us.

(** The stored handle of [r] is [handle], up to case. *)
Definition handle_matches (py : PyStr) (handle : string) (r : User) : Prop :=
  str_lower py (default "" (username r)) = str_lower py handle.

(** ** Which stage takes which kind of message

    Read off [message_handler] and [file_handler]: the stages whose handler
    is run for a text message, and for a media message. *)

Definition accepts_text (ADMIN_ID : string) (u : Sender) (s : stage) : bool :=
  match s with
  | friend_username | friend_nickname | file_name | file_comment
  | file_new_comment => true
  | admin_broadcast | admin_view_user | admin_ban => String.eqb (user_id u) ADMIN_ID
  | file => false
  end.

Definition accepts_media (ADMIN_ID : string) (u : Sender) (s : stage) : bool :=
  match s with
  | file => true
  | admin_broadcast => String.eqb (user_id u) ADMIN_ID
  | _ => false
  end.

(** ** A small cast for the examples *)

Module Scenario.

Definition admin : string := "900".

Definition alice : Sender := mkSender "1" (Some "alice") None.
Definition bob : Sender := mkSender "2" (Some "Bob") None.
Definition carol : Sender := mkSender "3" None (Some "Carol").

(** A transport that accepts everything, and one that is down. *)
Definition online : string -> option Z := λ _, Some 100%Z.
Definition offline : string -> option Z := λ _, None.
Definition retract_ok : string -> Z -> bool := λ _ _, true.
Definition no_cache : string -> string -> option string := λ _ _, None.

(** The three have pressed [/start]; nothing else has happened. *)
Definition registered : Data :=
  mkData [("1", mkUser (Some "alice") [] ∅);
          ("2", mkUser (Some "Bob") [] ∅);
          ("3", mkUser (Some "Carol") [] ∅)]
         ∅ ∅ ∅ ∅ [].

(** Alice has invited Bob. *)
Definition invited : Data :=
  set_invites {[ "2" := mkInvite "1" "alice" ]} registered.

(** Alice and Bob are friends; Bob is banned. *)
Definition befriended : Data :=
  mkData [("1", mkUser (Some "alice") ["2"] ∅);
          ("2", mkUser (Some "Bob") ["1"] ∅);
          ("3", mkUser (Some "Carol") [] ∅)]
         {[ "1_2" := mkGallery ["2"; "1"] [] ]} ∅ ∅ ∅ ["2"].

(** Alice and Bob are in a chat session. *)
Definition chatting : Data :=
  set_active_chats {[ "1" := "2"; "2" := "1" ]} registered.

Definition awaiting (s : stage) : UserData :=
  set_waiting_for (Some s) empty_user_data.

End Scenario.

(** ** The gallery ledger: viewing and removing items

    [view_gallery] and [delete_file].  The two keys of [context.user_data]
    that the view writes are kept in a record of their own. *)

Record ViewData := mkViewData {
  current_gallery : option string;
  current_friend : option string
}.

Inductive ledger_msg :=
| GalleryView (friend_name : string) (rows : list string)
| FileNotFoundAlert
| FileDeletedAlert
| ExportStarting
| ExportEmpty
| ExportHeader (friend_name : string) (total : nat)
| ExportItem (item : FileInfo)
| ExportDone (sent total : nat)
| StatsView (total_users banned_count total_galleries total_files
             photos videos docs chats : nat).

(** [LReply] answers in the chat of the update, [LSend] is a
    [context.bot.send_*] call that went through, [RemoveFile] is the
    [os.remove] attempt on a cached file, [LUnhandled] an exception that
    left the handler. *)
Inductive ledger_effect :=
| LReply (m : ledger_msg)
| LSend (chat_id : string) (m : ledger_msg)
| RemoveFile (path : string)
| LUnhandled.

(** [data.get("galleries", {}).get(gallery_id, {}).get("files", [])] *)
Definition files_of (gid : string) (data : Data) : list FileInfo :=
  match galleries data !! gid with
  | Some g => files g
  | None => []
  end.

(** The rows show [name[:20]]. *)
Definition view_gallery (py : PyStr) (u : Sender) (friend_id : string)
    (data : Data) : ViewData * list ledger_effect :=
  let gid := gallery_id (user_id u) friend_id in
  (mkViewData (Some gid) (Some friend_id),
   [LReply (GalleryView (username_or drug friend_id data)
              (map (λ f, str_slice py 20 (name f)) (files_of gid data)))]).

(** The error log: a second JSON file, a list of dated entries. *)
Definition Logs : Type := list (string * string).

Section Ledger.

(** [py] holds the text methods; [path_exists] is [os.path.exists]; [now]
    the time stamp of a log entry; [deliver] is the outcome of a plain [send_message], as in the handlers
    above; [send_item f] is what sending the stored file [f] does: [None]
    when it goes through, [Some e] when it raises with the text [e]. *)
Variable py : PyStr.
Variable path_exists : string -> bool.
Variable now : string.
Variable deliver : string -> option Z.
Variable send_item : FileInfo -> option string.

(** [save_log]: append, then keep the last 50 entries. *)
Definition save_log (error_text : string) (logs : Logs) : Logs :=
  let logs := logs ++ [(now, error_text)] in
  drop (length logs - 50) logs.

Definition delete_file (u : Sender) (friend_id : string) (file_index : nat)
    (data : Data) (vd : ViewData) : Data * ViewData * list ledger_effect :=
  let gid := gallery_id (user_id u) friend_id in
  match galleries data !! gid with
  | None => (data, vd, [LReply FileNotFoundAlert])
  | Some g =>
      match files g !! file_index with
      | None => (data, vd, [LReply FileNotFoundAlert])
      | Some file_info =>
          let removal :=
            match local_path file_info with
            | Some p =>
                if Py.truthy (Some p) && path_exists p then [RemoveFile p] else []
            | None => []
            end in
          let data :=
            set_galleries
              (<[gid := mkGallery (g_users g) (delete file_index (files g))]>
                 (galleries data)) data in
          let '(vd, shown) := view_gallery py u friend_id data in
          (data, vd, removal ++ [LReply FileDeletedAlert] ++ shown)
      end
  end.

(** The loop of [export_gallery]: one send per item; a failure is logged
    and the loop goes on. *)
Fixpoint export_loop (chat_id : string) (items : list FileInfo) (sent : nat)
    (logs : Logs) (out : list ledger_effect) : nat * Logs * list ledger_effect :=
  match items with
  | [] => (sent, logs, out)
  | f :: items' =>
      match send_item f with
      | None =>
          export_loop chat_id items' (S sent) logs
            (out ++ [LSend chat_id (ExportItem f)])
      | Some e =>
          export_loop chat_id items' sent
            (save_log ("Export error: " +:+ str_slice py 50 e) logs) out
      end
  end.

Definition export_gallery (u : Sender) (friend_id : string) (data : Data)
    (logs : Logs) : Logs * list ledger_effect :=
  let gid := gallery_id (user_id u) friend_id in
  let items := files_of gid data in
  match deliver (user_id u) with
  | None => (logs, [LReply ExportStarting; LUnhandled])
  | Some _ =>
      match items with
      | [] => (logs, [LReply ExportStarting; LSend (user_id u) ExportEmpty])
      | _ =>
          let header :=
            LSend (user_id u)
              (ExportHeader (username_or drug friend_id data) (length items)) in
          let '(sent, logs, out) :=
            export_loop (user_id u) items 0 logs [LReply ExportStarting; header] in
          (logs, out ++ [LSend (user_id u) (ExportDone sent (length items))])
      end
  end.

End Ledger.

(** [admin_show_stats] *)
Definition gallery_values (data : Data) : list Gallery :=
  (map_to_list (galleries data)).*2.

Global Instance file_type_eq_dec : EqDecision file_type.
Proof. solve_decision. Defined.

Definition count_type (ty : file_type) (gs : list Gallery) : nat :=
  foldr (λ g n, length (filter (λ f, type f = ty) (files g)) + n) 0 gs.

Definition total_files (gs : list Gallery) : nat :=
  foldr (λ g n, length (files g) + n) 0 gs.

Definition admin_show_stats (data : Data) : list ledger_effect :=
  let gs := gallery_values data in
  [LReply (StatsView (length (users data)) (length (banned_users data))
             (size (galleries data)) (total_files gs)
             (count_type photo gs) (count_type video gs) (count_type document gs)
             (size (active_chats data) / 2))].

(** ** Buttons: what the keyboards carry and how it is routed

    [button_handler] walks one [if]/[elif] chain over [query.data]: tests
    for equality, tests with [startswith], in the order below.  A branch
    taken through [startswith] cuts its argument out with
    [data_str.replace(prefix, "")]. *)

(** [s.replace(old, "")] for a non-empty [old]: every occurrence of [old],
    found from left to right, is dropped. *)
Fixpoint drop_prefix (old s : string) : option string :=
  match old, s with
  | EmptyString, _ => Some s
  | String a old', String b s' =>
      if Ascii.eqb a b then drop_prefix old' s' else None
  | String _ _, EmptyString => None
  end.

Fixpoint remove_all_go (fuel : nat) (old s : string) : string :=
  match fuel with
  | O => s
  | S fuel =>
      match drop_prefix old s with
      | Some rest => remove_all_go fuel old rest
      | None =>
          match s with
          | EmptyString => EmptyString
          | String c s' => String c (remove_all_go fuel old s')
          end
      end
  end.

Definition remove_all (old s : string) : string :=
  remove_all_go (S (String.length s)) old s.

(** A step of the chain: [data_str == name] or
    [data_str.startswith(prefix)]. *)
Inductive test :=
| Equals (name : string)
| StartsWith (prefix : string).

(** The branch taken, with the argument as the code cuts it out with
    [replace] (the branches with an item index or two ids split it
    further). *)
Inductive branch :=
| Exact (name : string)
| Prefixed (prefix : string) (rest : string).

Definition button_chain : list test :=
  [Equals "main_menu"; Equals "about"; Equals "gallery"; Equals "settings";
   Equals "admin_panel"; Equals "add_friend";
   StartsWith "skip_comment_"; StartsWith "retry_comment_";
   StartsWith "view_gallery_"; StartsWith "export_gallery_";
   StartsWith "add_file_"; StartsWith "show_file_"; StartsWith "add_comment_";
   StartsWith "delete_file_"; StartsWith "confirm_del_";
   StartsWith "accept_invite_"; StartsWith "decline_invite_";
   StartsWith "rename_friend_"; StartsWith "start_chat_";
   StartsWith "cancel_chat_request_"; StartsWith "accept_chat_";
   StartsWith "decline_chat_"; StartsWith "back_to_gallery_";
   StartsWith "end_chat_";
   Equals "restart"; Equals "admin_logs"; Equals "admin_clear_logs";
   Equals "admin_broadcast"; Equals "admin_stats"; Equals "admin_view_user";
   Equals "admin_ban";
   StartsWith "admin_user_galleries_"; StartsWith "admin_view_gallery_";
   StartsWith "admin_export_";
   Equals "admin_back"].

Fixpoint route_in (chain : list test) (data_str : string) : option branch :=
  match chain with
  | [] => None
  | Equals name :: chain' =>
      if String.eqb data_str name then Some (Exact name)
      else route_in chain' data_str
  | StartsWith prefix :: chain' =>
      if String.prefix prefix data_str
      then Some (Prefixed prefix (remove_all prefix data_str))
      else route_in chain' data_str
  end.

(** The branch of [button_handler] that [query.data] reaches; [None] when
    it falls through the whole chain and nothing happens. *)
Definition route (data_str : string) : option branch :=
  route_in button_chain data_str.

(** The branches with one string argument or none, as the buttons of the
    model above. *)
Definition callback_of (b : branch) : option callback :=
  match b with
  | Exact "main_menu" => Some main_menu
  | Exact "admin_panel" => Some admin_panel_cb
  | Exact "add_friend" => Some add_friend
  | Exact "restart" => Some restart
  | Exact "admin_broadcast" => Some admin_broadcast_cb
  | Exact "admin_view_user" => Some admin_view_user_cb
  | Exact "admin_ban" => Some admin_ban_cb
  | Exact "admin_back" => Some admin_back_cb
  | Prefixed "skip_comment_" x => Some (skip_comment x)
  | Prefixed "retry_comment_" x => Some (retry_comment x)
  | Prefixed "add_file_" x => Some (add_file x)
  | Prefixed "accept_invite_" x => Some (accept_invite_cb x)
  | Prefixed "decline_invite_" x => Some (decline_invite_cb x)
  | Prefixed "rename_friend_" x => Some (rename_friend x)
  | Prefixed "start_chat_" x => Some (start_chat x)
  | Prefixed "cancel_chat_request_" x => Some (cancel_chat_request_cb x)
  | Prefixed "accept_chat_" x => Some (accept_chat_cb x)
  | Prefixed "decline_chat_" x => Some (decline_chat_cb x)
  | Prefixed "end_chat_" x => Some (end_chat_cb x)
  | _ => None
  end.

(** A user id as Telegram gives it: decimal digits only. *)
Fixpoint all_digits (s : string) : bool :=
  match s with
  | EmptyString => true
  | String c s' =>
      let n := nat_of_ascii c in
      (48 <=? n)%nat && (n <=? 57)%nat && all_digits s'
  end.

(** The [callback_data] of the keyboard that [back_to_gallery] sends, row
    by row: add a file; four sort buttons; two more sort buttons and
    export; one row per item; back. *)
Definition back_to_gallery_keyboard (friend_id : string) (items : list FileInfo)
    : list (list string) :=
  [ ["add_file_" +:+ friend_id];
    ["sort_gallery_" +:+ friend_id +:+ "_date_desc";
     "sort_gallery_" +:+ friend_id +:+ "_date_asc";
     "sort_gallery_" +:+ friend_id +:+ "_name_asc";
     "sort_gallery_" +:+ friend_id +:+ "_name_desc"];
    ["sort_gallery_" +:+ friend_id +:+ "_author";
     "sort_gallery_" +:+ friend_id +:+ "_default";
     "export_gallery_" +:+ friend_id] ]
  ++ imap (λ i _, ["show_file_" +:+ friend_id +:+ "_" +:+ pretty i;
                   "delete_file_" +:+ friend_id +:+ "_" +:+ pretty i]) items
  ++ [ ["gallery"] ].

(** The keyboard of [show_gallery_menu]: "add a friend", one row per friend
    with the name shown and the buttons to view, rename and chat, and
    "back".  The name shown is the owner's alias for the friend if there is
    a non-empty one, else the friend's handle, else [user_<id>]. *)
Inductive menu_row :=
| AddFriendRow
| FriendRow (label friend_id : string)
| BackRow.

Definition row_data (r : menu_row) : list string :=
  match r with
  | AddFriendRow => ["add_friend"]
  | FriendRow _ friend_id =>
      ["view_gallery_" +:+ friend_id; "rename_friend_" +:+ friend_id;
       "start_chat_" +:+ friend_id]
  | BackRow => ["main_menu"]
  end.

Definition friend_label (nicks : gmap string string) (friend_id : string)
    (data : Data) : string :=
  match nicks !! friend_id with
  | Some (String c n) => String c n
  | _ => username_or ("user_" +:+ friend_id) friend_id data
  end.

Definition show_gallery_menu (u : Sender) (data : Data) : list menu_row :=
  let '(friend_ids, nicks) :=
    match od_get (user_id u) (users data) with
    | Some owner => (friends owner, nicknames owner)
    | None => ([], ∅)
    end in
  [AddFriendRow]
    ++ map (λ friend_id, FriendRow (friend_label nicks friend_id data) friend_id)
         friend_ids
    ++ [BackRow].

(** ** Sample galleries for the examples *)

Module Samples.

Definition trip : FileInfo :=
  mkFileInfo photo "p1" "trip" "fun" "alice" "01.01.2025"
             (Some "gallery_files/1_2_7.jpg") [].

(** Alice and Bob's gallery holds one item, and two. *)
Definition one_item : Data :=
  set_galleries {[ "1_2" := mkGallery ["2"; "1"] [trip] ]} Scenario.befriended.
Definition two_items : Data :=
  set_galleries {[ "1_2" := mkGallery ["2"; "1"] [trip; trip] ]}
    Scenario.befriended.

Definition no_view : ViewData := mkViewData None None.

End Samples.

(** ** Shapes of the friendship graph *)

(** Every friendship edge has its mirror image. *)
Definition friends_symmetric (us : odict User) : Prop :=
  ∀ a b, friend_in us a b → friend_in us b a.

(** No friend list names the same friend twice. *)
Definition friends_nodup (us : odict User) : Prop :=
  ∀ k r, od_get k us = Some r → NoDup (friends r).

(** [l] is a prefix of [l']: nothing in it was changed or removed. *)
Definition extends {A} (l l' : list A) : Prop := ∃ more, l' = l ++ more.

(** * Properties *)

(** ** Dictionaries and lists of ids *)

Lemma od_get_set_eq {V} (k : string) (v : V) (d : odict V) :
  od_get k (od_set k v d) = Some v.
Proof.
  induction d as [|[k' v'] d IH]; simpl.
  - by rewrite String.eqb_refl.
  - destruct (String.eqb k' k) eqn:E; simpl; rewrite E; done.
Qed.

Lemma od_get_set_ne {V} (k k' : string) (v : V) (d : odict V) :
  k ≠ k' → od_get k' (od_set k v d) = od_get k' d.
Proof.
  intros Hne. induction d as [|[k0 v0] d IH]; simpl.
  - destruct (String.eqb_spec k k'); done.
  - destruct (String.eqb_spec k0 k) as [->|Hk]; simpl.
    + destruct (String.eqb_spec k k'); done.
    + destruct (String.eqb_spec k0 k'); done.
Qed.

Lemma od_set_id {V} (k : string) (v : V) (d : odict V) :
  od_get k d = Some v → od_set k v d = d.
Proof.
  induction d as [|[k0 v0] d IH]; simpl; [done|].
  destruct (String.eqb k0 k); [by intros [= ->]|].
  intros H. by rewrite IH.
Qed.

Lemma od_set_set {V} (k : string) (v w : V) (d : odict V) :
  od_set k w (od_set k v d) = od_set k w d.
Proof.
  induction d as [|[k0 v0] d IH]; simpl.
  - by rewrite String.eqb_refl.
  - destruct (String.eqb k0 k) eqn:E; simpl; rewrite E; [done|by rewrite IH].
Qed.

Lemma mem_true (x : string) (l : list string) : mem x l = true ↔ x ∈ l.
Proof.
  unfold mem. rewrite existsb_exists. split.
  - intros (y & Hy & E). apply String.eqb_eq in E as ->. by apply list_elem_of_In.
  - intros H. exists x. split; [by apply list_elem_of_In|apply String.eqb_refl].
Qed.

Lemma mem_app_r (x : string) (l : list string) : mem x (l ++ [x]) = true.
Proof. apply mem_true. set_solver. Qed.

Lemma mem_app_l (x y : string) (l : list string) :
  mem x l = true → mem x (l ++ [y]) = true.
Proof. rewrite !mem_true. set_solver. Qed.

(** ** The pair identifier *)

Lemma ltb_asym (a b : string) : String.ltb a b = true → String.ltb b a = false.
Proof.
  unfold String.ltb. rewrite (String.compare_antisym a b).
  by destruct (String.compare b a).
Qed.

Lemma ltb_total (a b : string) :
  String.ltb a b = false → String.ltb b a = false → a = b.
Proof.
  unfold String.ltb. rewrite (String.compare_antisym a b).
  destruct (String.compare b a) eqn:E; simpl; try done.
  intros _ _. symmetry. by apply String.compare_eq_iff.
Qed.

Lemma min_max_cases (a b : string) :
  (Py.min a b = a ∧ Py.max a b = b) ∨ (Py.min a b = b ∧ Py.max a b = a).
Proof.
  unfold Py.min, Py.max.
  destruct (String.ltb b a) eqn:Hba.
  - rewrite (ltb_asym _ _ Hba). by right.
  - destruct (String.ltb a b) eqn:Hab; [by left|].
    left. split; [done|]. by apply ltb_total.
Qed.

Lemma min_comm (a b : string) : Py.min a b = Py.min b a.
Proof.
  unfold Py.min.
  destruct (String.ltb b a) eqn:Hba, (String.ltb a b) eqn:Hab; try done.
  - by rewrite (ltb_asym _ _ Hba) in Hab.
  - by apply ltb_total.
Qed.

Lemma max_comm (a b : string) : Py.max a b = Py.max b a.
Proof.
  unfold Py.max.
  destruct (String.ltb b a) eqn:Hba, (String.ltb a b) eqn:Hab; try done.
  - by rewrite (ltb_asym _ _ Hba) in Hab.
  - symmetry. by apply ltb_total.
Qed.

Lemma gallery_id_comm (a b : string) : gallery_id a b = gallery_id b a.
Proof. unfold gallery_id. by rewrite min_comm, max_comm. Qed.

(** The first underscore of a key is the separator when the left id has
    none. *)
Lemma split_at_separator (s1 s2 t1 t2 : string) :
  underscore_free s1 = true → underscore_free s2 = true →
  s1 +:+ "_" +:+ t1 = s2 +:+ "_" +:+ t2 → s1 = s2 ∧ t1 = t2.
Proof.
  revert s2. induction s1 as [|c1 s1 IH]; intros [|c2 s2]; simpl.
  - intros _ _ E. by simplify_eq.
  - intros _ H E. by simplify_eq.
  - intros H _ E. by simplify_eq.
  - intros [_ H1]%andb_prop [_ H2]%andb_prop E. simplify_eq.
    destruct (IH s2 H1 H2) as [-> ->]; done.
Qed.

(** C4.  The pair identifier [min(A,B) + "_" + max(A,B)] does not depend on
    the order of its arguments, and on ids without an underscore two pairs
    with the same identifier are the same unordered pair. *)
Theorem gallery_id_symmetric_injective :
  (∀ a b : string, gallery_id a b = gallery_id b a) ∧
  (∀ a b c d : string,
      underscore_free a = true → underscore_free b = true →
      underscore_free c = true → underscore_free d = true →
      gallery_id a b = gallery_id c d →
      (a = c ∧ b = d) ∨ (a = d ∧ b = c)).
Proof.
  split; [apply gallery_id_comm|].
  intros a b c d Ha Hb Hc Hd. unfold gallery_id.
  destruct (min_max_cases a b) as [[-> ->]|[-> ->]],
           (min_max_cases c d) as [[-> ->]|[-> ->]];
    intros E; apply split_at_separator in E as [-> ->]; auto.
Qed.

Lemma gallery_id_symmetric_injective_witness :
  gallery_id "17" "4" = gallery_id "4" "17" ∧
  (underscore_free "17" = true → underscore_free "4" = true →
   underscore_free "4" = true → underscore_free "17" = true →
   gallery_id "17" "4" = gallery_id "4" "17" →
   ("17" = "4" ∧ "4" = "17") ∨ ("17" = "17" ∧ "4" = "4")).
Proof.
  split.
  - apply (proj1 gallery_id_symmetric_injective "17" "4").
  - apply (proj2 gallery_id_symmetric_injective "17" "4" "4" "17").
Defined.

(** ** Accepting an invite *)

Lemma ensure_user_self (uid : string) (r : User) (us : odict User) :
  is_Some (od_get uid (ensure_user uid r us)).
Proof.
  unfold ensure_user, od_mem.
  destruct (od_get uid us) eqn:E; [by rewrite E|].
  rewrite od_get_set_eq. done.
Qed.

Lemma ensure_user_keeps (uid k : string) (r : User) (us : odict User) :
  is_Some (od_get k us) → od_get k (ensure_user uid r us) = od_get k us.
Proof.
  unfold ensure_user, od_mem. intros [v Hv].
  destruct (od_get uid us) eqn:E; [done|].
  apply od_get_set_ne. intros ->. congruence.
Qed.


Lemma append_friend_adds (owner friend : string) (us : odict User) :
  is_Some (od_get owner us) → friend_in (append_friend owner friend us) owner friend.
Proof.
  intros [r Hr]. unfold append_friend, friend_in. rewrite Hr.
  destruct (mem friend (friends r)) eqn:E.
  - by exists r.
  - eexists. rewrite od_get_set_eq. split; [done|]. simpl. apply mem_app_r.
Qed.

Lemma append_friend_keeps (owner friend o x : string) (us : odict User) :
  friend_in us o x → friend_in (append_friend owner friend us) o x.
Proof.
  intros (r & Hr & Hx). unfold append_friend, friend_in.
  destruct (od_get owner us) as [r0|] eqn:E; [|by exists r].
  destruct (mem friend (friends r0)); [by exists r|].
  destruct (decide (owner = o)) as [->|Hne].
  - eexists. rewrite od_get_set_eq. split; [done|]. simpl.
    apply mem_app_l. congruence.
  - exists r. by rewrite od_get_set_ne.
Qed.

Lemma append_friend_is_Some (owner friend k : string) (us : odict User) :
  is_Some (od_get k us) → is_Some (od_get k (append_friend owner friend us)).
Proof.
  intros Hk. unfold append_friend.
  destruct (od_get owner us) as [r0|] eqn:E; [|done].
  destruct (mem friend (friends r0)); [done|].
  destruct (decide (owner = k)) as [->|Hne].
  - by rewrite od_get_set_eq.
  - by rewrite od_get_set_ne.
Qed.


Lemma ensure_gallery_is_Some (gid : string) (ms : list string)
    (gs : gmap string Gallery) :
  is_Some (ensure_gallery gid ms gs !! gid).
Proof.
  unfold ensure_gallery. destruct (gs !! gid) eqn:E; [by rewrite E|].
  by rewrite lookup_insert_eq.
Qed.


Lemma friend_in_friends_of (d : Data) (owner friend : string) :
  friend_in (users d) owner friend → mem friend (friends_of owner d) = true.
Proof. intros (r & Hr & Hx). unfold friends_of. by rewrite Hr. Qed.

(** What the saved document looks like after an accept, whatever it was
    before. *)
Lemma accept_invite_data_post (u : Sender) (from : string) (d : Data) :
  let d' := accept_invite_data u from d in
  friend_in (users d') (user_id u) from ∧
  friend_in (users d') from (user_id u) ∧
  is_Some (galleries d' !! gallery_id (user_id u) from) ∧
  invites d' !! user_id u = None.
Proof.
  simpl. unfold accept_invite_data. simpl.
  set (us1 := ensure_user (user_id u) (fresh_user u) (users d)).
  set (us2 := ensure_user from _ us1).
  assert (H1 : is_Some (od_get (user_id u) us2)).
  { unfold us2. rewrite ensure_user_keeps; apply ensure_user_self. }
  assert (H2 : is_Some (od_get from us2)) by apply ensure_user_self.
  repeat split.
  - apply append_friend_keeps. by apply append_friend_adds.
  - apply append_friend_adds. by apply append_friend_is_Some.
  - apply ensure_gallery_is_Some.
  - apply lookup_delete_eq.
Qed.


(** C3.  After B accepts an invite from A, A's friend list contains B and
    B's contains A, the gallery keyed by the pair identifier of A and B
    exists, and a gallery that was not there before the accept has no
    items. *)
Theorem accept_invite_befriends_and_opens_gallery
    (deliver : string -> option Z) (b : Sender) (a : string)
    (d : Data) (ctx : UserData) :
  let d' := data_of (accept_invite deliver b a d ctx) in
  mem (user_id b) (friends_of a d') = true ∧
  mem a (friends_of (user_id b) d') = true ∧
  is_Some (galleries d' !! gallery_id a (user_id b)) ∧
  (galleries d !! gallery_id a (user_id b) = None →
   ∃ g, galleries d' !! gallery_id a (user_id b) = Some g ∧ files g = []).
Proof.
  simpl. unfold accept_invite, data_of. simpl.
  destruct (accept_invite_data_post b a d) as (Hb & Ha & Hg & _).
  rewrite (gallery_id_comm a (user_id b)).
  repeat split.
  - by apply friend_in_friends_of.
  - by apply friend_in_friends_of.
  - done.
  - intros Hnew. unfold accept_invite_data. simpl.
    unfold ensure_gallery. rewrite Hnew.
    eexists. rewrite lookup_insert_eq. done.
Qed.

Lemma accept_invite_befriends_and_opens_gallery_witness :
  galleries Scenario.invited !! gallery_id "1" "2" = None ∧
  let d' := data_of (accept_invite Scenario.online Scenario.bob "1"
                       Scenario.invited empty_user_data) in
  mem "2" (friends_of "1" d') = true ∧
  mem "1" (friends_of "2" d') = true ∧
  is_Some (galleries d' !! gallery_id "1" "2") ∧
  (galleries Scenario.invited !! gallery_id "1" "2" = None →
   ∃ g, galleries d' !! gallery_id "1" "2" = Some g ∧ files g = []).
Proof.
  split; [reflexivity|].
  apply (accept_invite_befriends_and_opens_gallery
           Scenario.online Scenario.bob "1" Scenario.invited empty_user_data).
Defined.



(** ** Requesting a chat *)

(** C5.  A request by a sender who already has a request out or is in a
    chat is refused and nothing is recorded; otherwise the request is
    stored under the sender, with the addressee and the id of the
    notification that was delivered to the addressee. *)
Theorem start_chat_request_refuses_or_stores
    (deliver : string -> option Z) (a : Sender) (b : string)
    (d : Data) (ctx : UserData) :
  let r := start_chat_request deliver a b d ctx in
  (has_request (user_id a) d ∨ has_session (user_id a) d →
   request_refused (out_of r) ∧ data_of r = d) ∧
  (¬ has_request (user_id a) d → ¬ has_session (user_id a) d →
   ∀ mid, deliver b = Some mid →
     data_of r =
       set_chat_requests
         (<[user_id a := mkChatRequest b mid]> (chat_requests d)) d ∧
     chat_requests (data_of r) !! user_id a = Some (mkChatRequest b mid)).
Proof.
  simpl. unfold start_chat_request, has_request, has_session, request_refused,
    data_of, out_of.
  destruct (chat_requests d !! user_id a) as [req|] eqn:Hreq.
  - split; [eauto|]. intros []. eauto.
  - case_bool_decide as Hact; simpl.
    + split; [eauto|]. intros _ []. done.
    + split.
      * intros [[? [=]]|?]; done.
      * intros _ _ mid ->. simpl. split; [done|]. apply lookup_insert_eq.
Qed.

Lemma start_chat_request_refuses_or_stores_witness :
  (has_request "1" Scenario.chatting ∨ has_session "1" Scenario.chatting) ∧
  ¬ has_request "1" Scenario.registered ∧
  ¬ has_session "1" Scenario.registered ∧
  Scenario.online "2" = Some 100%Z ∧
  request_refused
    (out_of (start_chat_request Scenario.online Scenario.alice "3"
               Scenario.chatting empty_user_data)) ∧
  chat_requests
    (data_of (start_chat_request Scenario.online Scenario.alice "2"
                Scenario.registered empty_user_data)) !! "1"
  = Some (mkChatRequest "2" 100).
Proof.
  assert (H1 : has_request "1" Scenario.chatting ∨ has_session "1" Scenario.chatting).
  { right. by eexists. }
  assert (H2 : ¬ has_request "1" Scenario.registered) by (intros [? [=]]).
  assert (H3 : ¬ has_session "1" Scenario.registered) by (intros [? [=]]).
  split; [exact H1|]. split; [exact H2|]. split; [exact H3|].
  split; [reflexivity|]. split.
  - apply (proj1 (start_chat_request_refuses_or_stores Scenario.online
                    Scenario.alice "3" Scenario.chatting empty_user_data) H1).
  - apply (proj2 (start_chat_request_refuses_or_stores Scenario.online
                    Scenario.alice "2" Scenario.registered empty_user_data)
             H2 H3 100%Z eq_refl).
Defined.

(** A sender with a free slot and no session gets the request stored once
    the notification is delivered. *)
Lemma start_chat_request_stores
    (deliver : string -> option Z) (a : Sender) (b : string)
    (d : Data) (ctx : UserData) (mid : Z) :
  ¬ has_request (user_id a) d → ¬ has_session (user_id a) d →
  deliver b = Some mid →
  data_of (start_chat_request deliver a b d ctx)
  = set_chat_requests (<[user_id a := mkChatRequest b mid]> (chat_requests d)) d.
Proof.
  unfold start_chat_request, has_request, has_session, data_of.
  intros Hreq Hact ->.
  destruct (chat_requests d !! user_id a); [by destruct Hreq|].
  by rewrite bool_decide_eq_false_2.
Qed.

(** C10.  When the notification to the addressee cannot be delivered,
    [start_chat_request] saves nothing: the document is the one it loaded,
    a free request slot of the sender stays free, and the sender can place
    a request later. *)
Theorem start_chat_request_undelivered
    (deliver : string -> option Z) (a : Sender) (b : string)
    (d : Data) (ctx : UserData) :
  deliver b = None →
  let r := start_chat_request deliver a b d ctx in
  data_of r = d ∧
  (¬ has_request (user_id a) d → ¬ has_request (user_id a) (data_of r)) ∧
  (¬ has_request (user_id a) d → ¬ has_session (user_id a) d →
   out_of r = [Reply ChatRequestFailed] ∧
   ∀ deliver' b' mid, deliver' b' = Some mid →
     chat_requests
       (data_of (start_chat_request deliver' a b' (data_of r) (ctx_of r)))
       !! user_id a = Some (mkChatRequest b' mid)).
Proof.
  intros Hfail. simpl.
  assert (Hd : data_of (start_chat_request deliver a b d ctx) = d).
  { unfold start_chat_request, data_of.
    destruct (chat_requests d !! user_id a); [done|].
    case_bool_decide; [done|]. by rewrite Hfail. }
  rewrite Hd. split; [done|]. split; [done|].
  intros Hreq Hact. split.
  - unfold start_chat_request, out_of, has_request, has_session in *.
    destruct (chat_requests d !! user_id a); [by destruct Hreq|].
    case_bool_decide; [done|]. by rewrite Hfail.
  - intros deliver' b' mid Hok.
    rewrite (start_chat_request_stores deliver' a b' d _ mid) by done.
    apply lookup_insert_eq.
Qed.

Lemma start_chat_request_undelivered_witness :
  Scenario.offline "2" = None ∧
  data_of (start_chat_request Scenario.offline Scenario.alice "2"
             Scenario.registered empty_user_data) = Scenario.registered.
Proof.
  split; [reflexivity|].
  apply (start_chat_request_undelivered Scenario.offline Scenario.alice "2"
           Scenario.registered empty_user_data eq_refl).
Defined.


(** ** The handshake invariant *)

(** Placing a request keeps the invariant: the sender is checked for both a
    request and a session before anything is stored. *)
Lemma start_chat_request_at_most_one
    (deliver : string -> option Z) (a : Sender) (b : string)
    (d : Data) (ctx : UserData) :
  at_most_one d →
  at_most_one (data_of (start_chat_request deliver a b d ctx)).
Proof.
  unfold start_chat_request, data_of.
  destruct (chat_requests d !! user_id a) eqn:Hreq; [done|].
  case_bool_decide as Hact; [done|].
  destruct (deliver b); [|done]. simpl.
  intros Hinv x [Hr Hs]. unfold has_request, has_session in *. simpl in *.
  destruct (decide (user_id a = x)) as [<-|Hne]; [done|].
  rewrite lookup_insert_ne in Hr by done. by apply (Hinv x).
Qed.

(** Cancelling, declining and ending only remove entries. *)
Lemma cancel_chat_request_at_most_one
    (retract : string -> Z -> bool) (a : Sender) (b : string)
    (d : Data) (ctx : UserData) :
  at_most_one d →
  at_most_one (data_of (cancel_chat_request retract a b d ctx)).
Proof.
  unfold cancel_chat_request, data_of.
  destruct (chat_requests d !! user_id a) eqn:Hreq; [|done].
  destruct (String.eqb _ _); [|done]. simpl.
  intros Hinv x [Hr Hs]. unfold has_request, has_session in *. simpl in *.
  apply (Hinv x). split; [|done].
  destruct (decide (user_id a = x)) as [<-|Hne].
  - rewrite lookup_delete_eq in Hr. by destruct Hr.
  - by rewrite lookup_delete_ne in Hr.
Qed.

Lemma decline_chat_at_most_one (b : Sender) (a : string)
    (d : Data) (ctx : UserData) :
  at_most_one d → at_most_one (data_of (decline_chat b a d ctx)).
Proof.
  unfold decline_chat, data_of. simpl.
  intros Hinv x [Hr Hs]. unfold has_request, has_session in *. simpl in *.
  apply (Hinv x). split; [|done].
  destruct (decide (a = x)) as [<-|Hne].
  - rewrite lookup_delete_eq in Hr. by destruct Hr.
  - by rewrite lookup_delete_ne in Hr.
Qed.

Lemma end_chat_at_most_one
    (deliver : string -> option Z) (x0 : Sender) (y : string)
    (d : Data) (ctx : UserData) :
  at_most_one d → at_most_one (data_of (end_chat deliver x0 y d ctx)).
Proof.
  unfold end_chat, data_of. simpl.
  intros Hinv x [Hr Hs]. unfold has_request, has_session in *. simpl in *.
  apply (Hinv x). split; [done|].
  destruct (decide (y = x)) as [<-|Hy].
  - rewrite lookup_delete_eq in Hs. by destruct Hs.
  - rewrite lookup_delete_ne in Hs by done.
    destruct (decide (user_id x0 = x)) as [<-|Hx].
    + rewrite lookup_delete_eq in Hs. by destruct Hs.
    + by rewrite lookup_delete_ne in Hs.
Qed.

(** Accepting keeps the invariant only when the accepting user has no
    request of their own out: [accept_chat] removes the request of the
    requester and never looks at the acceptor's. *)
Lemma accept_chat_at_most_one
    (deliver : string -> option Z) (b : Sender) (a : string)
    (d : Data) (ctx : UserData) :
  at_most_one d → ¬ has_request (user_id b) d →
  at_most_one (data_of (accept_chat deliver b a d ctx)).
Proof.
  unfold accept_chat, data_of. simpl.
  intros Hinv Hb x [Hr Hs]. unfold has_request, has_session in *. simpl in *.
  destruct (decide (a = x)) as [<-|Ha].
  { rewrite lookup_delete_eq in Hr. by destruct Hr. }
  rewrite lookup_delete_ne in Hr by done.
  rewrite lookup_insert_ne in Hs by done.
  destruct (decide (user_id b = x)) as [<-|Hx]; [done|].
  rewrite lookup_insert_ne in Hs by done.
  by apply (Hinv x).
Qed.

(** C1.  The invariant is not kept by the code.  Alice asks Bob for a
    chat, Bob asks Carol, Bob accepts Alice: every step goes through, and
    Bob ends up with his request to Carol still out and a session with
    Alice. *)
Theorem accept_chat_breaks_at_most_one :
  let ops := [Request Scenario.alice "2"; Request Scenario.bob "3";
              Accept Scenario.bob "1"] in
  let d := hs_run Scenario.online Scenario.retract_ok ops Scenario.registered in
  at_most_one Scenario.registered ∧
  chat_requests d !! "2" = Some (mkChatRequest "3" 100) ∧
  active_chats d !! "2" = Some "1" ∧
  ¬ at_most_one d.
Proof.
  simpl. split; [|split; [|split]].
  - intros x [[? [=]] _].
  - vm_compute. done.
  - vm_compute. done.
  - intros H. apply (H "2"). split; vm_compute; eauto.
Qed.

(** ** Sending an invite *)

Lemma resolve_handle_None (py : PyStr) (handle : string) (us : odict User) :
  resolve_handle py handle us = None ↔
  ∀ uid r, (uid, r) ∈ us → ¬ handle_matches py handle r.
Proof.
  unfold handle_matches. induction us as [|[k v] us IH]; simpl.
  - split; [|done]. intros _ uid r H. by apply elem_of_nil in H.
  - destruct (String.eqb_spec (str_lower py (default "" (username v))) (str_lower py handle))
      as [E|E].
    + split; [done|]. intros H. destruct (H k v); [by left|done].
    + rewrite IH. split.
      * intros H uid r [[= -> ->]|Hin]%elem_of_cons; [done|by apply (H uid r)].
      * intros H uid r Hin. apply (H uid r). by right.
Qed.

Lemma resolve_handle_Some (py : PyStr) (handle t : string) (us : odict User) :
  resolve_handle py handle us = Some t →
  ∃ r, (t, r) ∈ us ∧ handle_matches py handle r.
Proof.
  unfold handle_matches. induction us as [|[k v] us IH]; simpl; [done|].
  destruct (String.eqb_spec (str_lower py (default "" (username v))) (str_lower py handle))
    as [E|E].
  - intros [= <-]. exists v. split; [left|done].
  - intros H. destruct (IH H) as (r & Hin & Hr). exists r. split; [by right|done].
Qed.

Lemma ids_nonempty_elem (us : odict User) (uid : string) (r : User) :
  ids_nonempty us = true → (uid, r) ∈ us → uid ≠ "".
Proof.
  unfold ids_nonempty. rewrite forallb_forall. intros H Hin ->.
  apply list_elem_of_In in Hin. apply H in Hin. done.
Qed.

Lemma truthy_Some (t : string) : t ≠ "" → Py.truthy (Some t) = true.
Proof. by destruct t. Qed.

(** C6.  With the add-friend stage active, the typed handle is resolved
    against the stored handles without regard to case.  No match is
    answered with "user not found"; a match that is the sender with
    "cannot add yourself"; a match that is already in the sender's friend
    list with "already friends"; nothing is saved in these cases.  Any other
    match gets the invite stored in its slot, whatever the slot held
    before, and no other slot changes. *)
Theorem handle_friend_username_outcomes (py : PyStr)
    (deliver : string -> option Z) (a : Sender) (txt : string)
    (d : Data) (ctx : UserData) :
  waiting_for ctx = Some friend_username →
  ids_nonempty (users d) = true →
  let handle := Py.lstrip_at (str_strip py txt) in
  let r := handle_friend_username py deliver a txt d ctx in
  ((∀ uid rec, (uid, rec) ∈ users d → ¬ handle_matches py handle rec) →
   out_of r = [Reply (UserNotFound handle)] ∧ data_of r = d) ∧
  (∀ t, resolve_handle py handle (users d) = Some t →
     (∃ rec, (t, rec) ∈ users d ∧ handle_matches py handle rec) ∧
     (t = user_id a →
      out_of r = [Reply CannotAddSelf] ∧ data_of r = d) ∧
     (t ≠ user_id a → t ∈ friends_of (user_id a) d →
      out_of r = [Reply (AlreadyFriends handle)] ∧ data_of r = d) ∧
     (t ≠ user_id a → t ∉ friends_of (user_id a) d →
      invites (data_of r) !! t = Some (mkInvite (user_id a) (get_username a)) ∧
      (∀ k, k ≠ t → invites (data_of r) !! k = invites d !! k) ∧
      users (data_of r) = users d)).
Proof.
  intros Hstage Hids. simpl.
  unfold handle_friend_username, data_of, out_of. rewrite Hstage. simpl.
  set (handle := Py.lstrip_at (str_strip py txt)).
  split.
  - intros Hnone. apply resolve_handle_None in Hnone. by rewrite Hnone.
  - intros t Ht. rewrite Ht.
    destruct (resolve_handle_Some py _ _ _ Ht) as (rec & Hin & Hrec).
    rewrite (truthy_Some t) by eauto using ids_nonempty_elem. simpl.
    split; [eauto|].
    destruct (String.eqb_spec t (user_id a)) as [->|Hne].
    { split; [done|]. split; [done|]. done. }
    split; [done|].
    destruct (mem t (friends_of (user_id a) d)) eqn:Hmem.
    + apply mem_true in Hmem. split; [done|]. split; [|done].
      intros. by destruct (deliver t).
    + assert (t ∉ friends_of (user_id a) d) by (rewrite <- mem_true; congruence).
      split; [done|]. intros _ _.
      destruct (deliver t); simpl; (split; [apply lookup_insert_eq|]);
        (split; [|done]); intros k Hk; by apply lookup_insert_ne.
Qed.

Lemma handle_friend_username_outcomes_witness :
  waiting_for (Scenario.awaiting friend_username) = Some friend_username ∧
  ids_nonempty (users Scenario.invited) = true ∧
  resolve_handle AsciiText.methods
    (Py.lstrip_at (str_strip AsciiText.methods " @BOB ")) (users Scenario.invited)
  = Some "2" ∧
  "2" ≠ user_id Scenario.carol ∧
  ("2" ∉ friends_of (user_id Scenario.carol) Scenario.invited) ∧
  invites Scenario.invited !! "2" = Some (mkInvite "1" "alice") ∧
  invites (data_of (handle_friend_username AsciiText.methods Scenario.online Scenario.carol
                      " @BOB " Scenario.invited
                      (Scenario.awaiting friend_username))) !! "2"
  = Some (mkInvite "3" "Carol").
Proof.
  assert (Hne : "2" ≠ user_id Scenario.carol) by (intros [=]).
  assert (Hnf : "2" ∉ friends_of (user_id Scenario.carol) Scenario.invited).
  { simpl. apply not_elem_of_nil. }
  split; [reflexivity|]. split; [reflexivity|]. split; [reflexivity|].
  split; [exact Hne|]. split; [exact Hnf|]. split; [reflexivity|].
  apply (proj2 (handle_friend_username_outcomes AsciiText.methods Scenario.online Scenario.carol
                  " @BOB " Scenario.invited (Scenario.awaiting friend_username)
                  eq_refl eq_refl) "2" eq_refl).
  - exact Hne.
  - exact Hnf.
Defined.

(** ** Registration *)

Lemma restart_user_idem (u : Sender) (d : Data) :
  restart_user u (restart_user u d) = restart_user u d.
Proof. unfold restart_user, set_users. simpl. by rewrite od_set_set. Qed.

(** C9 as stated does not hold.  Alice has Bob in her friend list; after
    the [restart] button her list is empty.  And [/start] from a known user
    whose handle has changed leaves the stored handle as it was. *)
Lemma registration_counterexample :
  let renamed := mkSender "1" (Some "alice_new") None in
  friends_of "1" Scenario.befriended = ["2"] ∧
  friends_of "1"
    (data_of (button_handler Scenario.admin Scenario.online Scenario.retract_ok
                Scenario.alice restart Scenario.befriended empty_user_data))
  = [] ∧
  username_or "" "1"
    (data_of (start Scenario.admin renamed Scenario.befriended empty_user_data))
  = "alice".
Proof. vm_compute. done. Qed.

(** C9, amended.  First contact ([/start] by a user who is not banned)
    creates the record, with the current handle and an empty friend list,
    only when the id is unknown; for a known id it leaves the whole document,
    stored handle and friend list included, as it is.  Explicit
    re-registration (the [restart] button) replaces the user's record by a
    fresh one: the handle is overwritten and the friend list is reset to
    empty.  Both are idempotent and touch no other user's record. *)
Theorem registration_effects
    (ADMIN_ID : string) (deliver : string -> option Z)
    (retract : string -> Z -> bool) (u : Sender) (d : Data) (ctx : UserData) :
  is_banned (user_id u) d = false →
  let d1 := data_of (start ADMIN_ID u d ctx) in
  let d2 := data_of (button_handler ADMIN_ID deliver retract u restart d ctx) in
  (od_get (user_id u) (users d) = None →
   od_get (user_id u) (users d1) = Some (fresh_user u)) ∧
  (is_Some (od_get (user_id u) (users d)) → d1 = d) ∧
  (∀ k, k ≠ user_id u → od_get k (users d1) = od_get k (users d)) ∧
  data_of (start ADMIN_ID u d1 ctx) = d1 ∧
  od_get (user_id u) (users d2) = Some (fresh_user u) ∧
  username (fresh_user u) = Some (get_username u) ∧
  friends (fresh_user u) = [] ∧
  (∀ k, k ≠ user_id u → od_get k (users d2) = od_get k (users d)) ∧
  data_of (button_handler ADMIN_ID deliver retract u restart d2 ctx) = d2.
Proof.
  intros Hban. cbv zeta.
  assert (Hstart : ∀ d0, is_banned (user_id u) d0 = false →
            data_of (start ADMIN_ID u d0 ctx) =
            if od_mem (user_id u) (users d0) then d0
            else set_users (od_set (user_id u) (fresh_user u) (users d0)) d0).
  { intros d0 H0. unfold start, data_of. rewrite H0.
    destruct (od_mem (user_id u) (users d0)); simpl;
      by destruct (invites d0 !! user_id u). }
  assert (Hrestart : ∀ d0,
            data_of (button_handler ADMIN_ID deliver retract u restart d0 ctx)
            = restart_user u d0) by done.
  rewrite !Hrestart, restart_user_idem. rewrite (Hstart d Hban).
  unfold od_mem.
  destruct (od_get (user_id u) (users d)) as [r|] eqn:Hr.
  - rewrite (Hstart d Hban). unfold od_mem. rewrite Hr.
    split; [done|]. split; [done|]. split; [done|]. split; [done|].
    split; [apply od_get_set_eq|]. split; [done|]. split; [done|].
    split; [|done]. intros k Hk. by apply od_get_set_ne.
  - set (d1 := set_users _ d).
    assert (Hban1 : is_banned (user_id u) d1 = false) by done.
    rewrite (Hstart d1 Hban1). unfold od_mem. simpl. rewrite od_get_set_eq.
    split; [done|]. split; [by intros [? [=]]|].
    split; [intros k Hk; by apply od_get_set_ne|]. split; [done|].
    split; [done|]. split; [done|]. split; [done|].
    split; [|done]. intros k Hk. by apply od_get_set_ne.
Qed.

Lemma registration_effects_witness :
  is_banned (user_id Scenario.alice) Scenario.befriended = false ∧
  od_get "1"
    (users (data_of (button_handler Scenario.admin Scenario.online
                       Scenario.retract_ok Scenario.alice restart
                       Scenario.befriended empty_user_data)))
  = Some (fresh_user Scenario.alice).
Proof.
  split; [reflexivity|].
  apply (registration_effects Scenario.admin Scenario.online Scenario.retract_ok
           Scenario.alice Scenario.befriended empty_user_data eq_refl).
Defined.

(** ** The ban check *)

(** C8 as stated does not hold.  Bob is banned.  His [/start] is answered
    (with the ban notice); his button presses and messages are handled like
    anybody's: he can ask Alice for a chat, and the request is stored and
    delivered. *)
Lemma ban_check_counterexample :
  let run e :=
    handle AsciiText.methods Scenario.admin Scenario.online Scenario.retract_ok
           Scenario.no_cache
           "01.01.2025" Scenario.bob e Scenario.befriended empty_user_data in
  is_banned "2" Scenario.befriended = true ∧
  out_of (run CmdStart) = [Reply BannedNotice] ∧
  out_of (run (Button (start_chat "1")))
  = [Send "1" (ChatRequestNotice "2" "Bob"); Send "2" (ChatRequestSent "alice")] ∧
  chat_requests (data_of (run (Button (start_chat "1")))) !! "2"
  = Some (mkChatRequest "1" 100).
Proof. vm_compute. done. Qed.

(** C8, amended.  For an identity in the ban set, [/start] checks the ban
    before anything else: the user is not registered, no invite or menu is
    shown, the saved document and the cursor are unchanged, and the only
    message is the ban notice. *)
Theorem start_banned (py : PyStr)
    (ADMIN_ID : string) (deliver : string -> option Z)
    (retract : string -> Z -> bool)
    (cache_locally : string -> string -> option string) (today : string)
    (u : Sender) (d : Data) (ctx : UserData) :
  user_id u ∈ banned_users d →
  handle py ADMIN_ID deliver retract cache_locally today u CmdStart d ctx
  = (d, ctx, [Reply BannedNotice]).
Proof.
  intros Hban%mem_true. unfold handle, start, is_banned. by rewrite Hban.
Qed.

Lemma start_banned_witness :
  user_id Scenario.bob ∈ banned_users Scenario.befriended ∧
  handle AsciiText.methods Scenario.admin Scenario.online Scenario.retract_ok
         Scenario.no_cache
         "01.01.2025" Scenario.bob CmdStart Scenario.befriended empty_user_data
  = (Scenario.befriended, empty_user_data, [Reply BannedNotice]).
Proof.
  assert (H : user_id Scenario.bob ∈ banned_users Scenario.befriended).
  { simpl. apply list_elem_of_In. simpl. by left. }
  split; [exact H|].
  apply (start_banned AsciiText.methods Scenario.admin Scenario.online Scenario.retract_ok
           Scenario.no_cache "01.01.2025" Scenario.bob Scenario.befriended
           empty_user_data H).
Defined.

(** ** Stages and the relay *)

Lemma relays_app (o1 o2 : list effect) :
  relays (o1 ++ o2) = relays o1 || relays o2.
Proof. apply existsb_app. Qed.

Lemma try_send_no_relay (deliver : string -> option Z) (to : string) (m : msg) :
  (∀ n c, m ≠ ChatMessage n c) → (∀ f, m ≠ ChatStickerFile f) →
  relays (try_send deliver to m) = false.
Proof.
  intros H1 H2. unfold try_send. destruct (deliver to); [|done].
  destruct m; try done; [by destruct (H1 from_name c)|by destruct (H2 fid)].
Qed.

Lemma handle_friend_username_no_relay (py : PyStr)
    (deliver : string -> option Z) (u : Sender) (txt : string)
    (d : Data) (ctx : UserData) :
  relays (out_of (handle_friend_username py deliver u txt d ctx)) = false.
Proof.
  unfold handle_friend_username, out_of.
  repeat (case_match; simpl; try done).
Qed.

Lemma handle_friend_nickname_no_relay (py : PyStr) (u : Sender) (txt : string)
    (d : Data) (ctx : UserData) :
  relays (out_of (handle_friend_nickname py u txt d ctx)) = false.
Proof.
  unfold handle_friend_nickname, out_of.
  repeat (case_match; simpl; try done).
Qed.

Lemma handle_file_name_no_relay (py : PyStr) (txt : string) (d : Data) (ctx : UserData) :
  relays (out_of (handle_file_name py txt d ctx)) = false.
Proof. unfold handle_file_name, out_of. by case_match. Qed.

Lemma handle_file_comment_no_relay (py : PyStr) (txt : string) (d : Data) (ctx : UserData) :
  relays (out_of (handle_file_comment py txt d ctx)) = false.
Proof. unfold handle_file_comment, out_of. by case_match. Qed.

Lemma handle_new_comment_no_relay (py : PyStr) (u : Sender) (txt : string)
    (d : Data) (ctx : UserData) :
  relays (out_of (handle_new_comment py u txt d ctx)) = false.
Proof.
  unfold handle_new_comment, out_of.
  repeat (case_match; simpl; try done).
Qed.

Lemma handle_file_no_relay
    (deliver : string -> option Z)
    (cache_locally : string -> string -> option string) (today : string)
    (u : Sender) (c : content) (d : Data) (ctx : UserData) :
  relays (out_of (handle_file deliver cache_locally today u c d ctx)) = false.
Proof.
  unfold handle_file, out_of.
  repeat (case_match; simpl; try done).
  rewrite relays_app, try_send_no_relay; done.
Qed.

Lemma handle_admin_view_user_no_relay (py : PyStr) (txt : string) (d : Data) (ctx : UserData) :
  relays (out_of (handle_admin_view_user py txt d ctx)) = false.
Proof. unfold handle_admin_view_user, out_of. by case_match. Qed.

Lemma handle_admin_ban_no_relay (py : PyStr) (txt : string) (d : Data) (ctx : UserData) :
  relays (out_of (handle_admin_ban py txt d ctx)) = false.
Proof. unfold handle_admin_ban, out_of. by case_match. Qed.

Lemma broadcast_to_no_relay (deliver : string -> option Z) (c : content)
    (uid : string) :
  relays (broadcast_to deliver c uid).2 = false.
Proof. unfold broadcast_to. repeat (case_match; simpl; try done). Qed.

Lemma broadcast_loop_no_relay (deliver : string -> option Z) (c : content)
    (uids : list string) (s f : nat) (out : list effect) :
  relays out = false →
  relays (broadcast_loop deliver c uids s f out).2 = false.
Proof.
  revert s f out. induction uids as [|uid uids IH]; intros s f out Hout; simpl.
  - done.
  - pose proof (broadcast_to_no_relay deliver c uid) as Hb.
    destruct (broadcast_to deliver c uid) as [ok sent]. simpl in Hb.
    destruct ok; apply IH; by rewrite relays_app, Hout, Hb.
Qed.

Lemma handle_admin_broadcast_no_relay
    (ADMIN_ID : string) (deliver : string -> option Z) (u : Sender)
    (c : content) (d : Data) (ctx : UserData) (r : hres) :
  handle_admin_broadcast ADMIN_ID deliver u c d ctx = Some r →
  relays (out_of r) = false.
Proof.
  unfold handle_admin_broadcast.
  destruct (negb (String.eqb (user_id u) ADMIN_ID)); [done|].
  destruct (negb (bool_decide (waiting_for ctx = Some admin_broadcast))); [done|].
  pose proof (broadcast_loop_no_relay deliver c (map fst (users d)) 0 0 [] eq_refl) as H.
  destruct (broadcast_loop deliver c (map fst (users d)) 0 0 []) as [[s f] out].
  intros [= <-]. unfold out_of. simpl in *. by rewrite relays_app, H.
Qed.

Lemma handle_admin_broadcast_declines
    (ADMIN_ID : string) (deliver : string -> option Z) (u : Sender)
    (c : content) (d : Data) (ctx : UserData) :
  waiting_for ctx ≠ Some admin_broadcast →
  handle_admin_broadcast ADMIN_ID deliver u c d ctx = None.
Proof.
  intros H. unfold handle_admin_broadcast.
  destruct (negb (String.eqb (user_id u) ADMIN_ID)); [done|].
  by rewrite bool_decide_eq_false_2.
Qed.

Lemma handle_admin_broadcast_accepts
    (ADMIN_ID : string) (deliver : string -> option Z) (u : Sender)
    (c : content) (d : Data) (ctx : UserData) :
  waiting_for ctx = Some admin_broadcast → String.eqb (user_id u) ADMIN_ID = true →
  is_Some (handle_admin_broadcast ADMIN_ID deliver u c d ctx).
Proof.
  intros H Hadm. unfold handle_admin_broadcast. rewrite Hadm, H. simpl.
  by destruct (broadcast_loop _ _ _ _ _ _) as [[??]?].
Qed.

(** C7 as stated does not hold.  Alice is in a chat with Bob.  While she is
    at the stage that waits for a file, a text message of hers is forwarded
    to Bob; while she is at the stage that waits for a file name, a photo
    of hers is forwarded to Bob.  The cursor stays where it was. *)
Lemma stage_priority_counterexample :
  let r1 := message_handler AsciiText.methods Scenario.admin Scenario.online Scenario.alice
              "hold on" Scenario.chatting (Scenario.awaiting file) in
  let r2 := file_handler Scenario.admin Scenario.online Scenario.no_cache
              "01.01.2025" Scenario.alice (Photo "p1" None) Scenario.chatting
              (Scenario.awaiting file_name) in
  out_of r1 = [Send "2" (ChatMessage "alice" (Text "hold on"))] ∧
  waiting_for (ctx_of r1) = Some file ∧
  out_of r2 = [Send "2" (ChatMessage "alice" (Photo "p1" None))] ∧
  waiting_for (ctx_of r2) = Some file_name.
Proof. vm_compute. done. Qed.

(** C7, amended.  When the active stage is one that takes the kind of the
    inbound message (a text stage for a text message, the file stage for a
    media message), the message is handled by that stage's handler and
    nothing is forwarded to the chat partner.  The relay forwards a message
    only when no stage is active or the active stage does not take that
    kind of message. *)
Theorem stage_consumes_matching_input (py : PyStr)
    (ADMIN_ID : string) (deliver : string -> option Z)
    (cache_locally : string -> string -> option string) (today : string)
    (u : Sender) (d : Data) (ctx : UserData) :
  (∀ s txt, waiting_for ctx = Some s → accepts_text ADMIN_ID u s = true →
     relays (out_of (message_handler py ADMIN_ID deliver u txt d ctx)) = false ∧
     (s = friend_username →
      message_handler py ADMIN_ID deliver u txt d ctx
      = handle_friend_username py deliver u txt d ctx) ∧
     (s = friend_nickname →
      message_handler py ADMIN_ID deliver u txt d ctx
      = handle_friend_nickname py u txt d ctx) ∧
     (s = file_name →
      message_handler py ADMIN_ID deliver u txt d ctx = handle_file_name py txt d ctx) ∧
     (s = file_comment →
      message_handler py ADMIN_ID deliver u txt d ctx = handle_file_comment py txt d ctx) ∧
     (s = file_new_comment →
      message_handler py ADMIN_ID deliver u txt d ctx
      = handle_new_comment py u txt d ctx)) ∧
  (∀ s c, waiting_for ctx = Some s → accepts_media ADMIN_ID u s = true →
     relays (out_of (file_handler ADMIN_ID deliver cache_locally today u c d ctx))
     = false ∧
     (s = file →
      file_handler ADMIN_ID deliver cache_locally today u c d ctx
      = handle_file deliver cache_locally today u c d ctx)) ∧
  (∀ txt,
     relays (out_of (message_handler py ADMIN_ID deliver u txt d ctx)) = true →
     waiting_for ctx = None ∨
     ∃ s, waiting_for ctx = Some s ∧ accepts_text ADMIN_ID u s = false) ∧
  (∀ c,
     relays (out_of (file_handler ADMIN_ID deliver cache_locally today u c d ctx))
     = true →
     waiting_for ctx = None ∨
     ∃ s, waiting_for ctx = Some s ∧ accepts_media ADMIN_ID u s = false).
Proof.
  assert (Htext : ∀ s txt, waiting_for ctx = Some s →
            accepts_text ADMIN_ID u s = true →
            relays (out_of (message_handler py ADMIN_ID deliver u txt d ctx)) = false).
  { intros s txt Hs Hacc. unfold message_handler.
    destruct (handle_admin_broadcast ADMIN_ID deliver u (Text txt) d ctx) as [r|] eqn:Hb.
    { by eapply handle_admin_broadcast_no_relay. }
    rewrite Hs. destruct s; simpl in Hacc; try done; try rewrite Hacc;
      eauto using handle_friend_username_no_relay, handle_friend_nickname_no_relay,
        handle_file_name_no_relay, handle_file_comment_no_relay,
        handle_new_comment_no_relay, handle_admin_view_user_no_relay,
        handle_admin_ban_no_relay.
    pose proof (handle_admin_broadcast_accepts ADMIN_ID deliver u (Text txt) d ctx
                  Hs Hacc) as [? ?]. congruence. }
  assert (Hmedia : ∀ s c, waiting_for ctx = Some s →
            accepts_media ADMIN_ID u s = true →
            relays (out_of (file_handler ADMIN_ID deliver cache_locally today u c d ctx))
            = false).
  { intros s c Hs Hacc. unfold file_handler.
    destruct (handle_admin_broadcast ADMIN_ID deliver u c d ctx) as [r|] eqn:Hb.
    { by eapply handle_admin_broadcast_no_relay. }
    destruct s; simpl in Hacc; try done.
    - rewrite Hs. rewrite bool_decide_eq_true_2 by done. apply handle_file_no_relay.
    - pose proof (handle_admin_broadcast_accepts ADMIN_ID deliver u c d ctx
                    Hs Hacc) as [? ?]. congruence. }
  split; [|split; [|split]].
  - intros s txt Hs Hacc. split; [by eapply Htext|].
    repeat split; intros ->; unfold message_handler;
      rewrite handle_admin_broadcast_declines by (by rewrite Hs);
      by rewrite Hs.
  - intros s c Hs Hacc. split; [by eapply Hmedia|].
    intros ->. unfold file_handler.
    rewrite handle_admin_broadcast_declines by (by rewrite Hs).
    by rewrite bool_decide_eq_true_2.
  - intros txt Hrel. destruct (waiting_for ctx) as [s|] eqn:Hs; [|by left].
    right. exists s. split; [done|].
    destruct (accepts_text ADMIN_ID u s) eqn:Hacc; [|done].
    rewrite (Htext s txt eq_refl Hacc) in Hrel. done.
  - intros c Hrel. destruct (waiting_for ctx) as [s|] eqn:Hs; [|by left].
    right. exists s. split; [done|].
    destruct (accepts_media ADMIN_ID u s) eqn:Hacc; [|done].
    rewrite (Hmedia s c eq_refl Hacc) in Hrel. done.
Qed.

Lemma stage_consumes_matching_input_witness :
  waiting_for (Scenario.awaiting file_name) = Some file_name ∧
  accepts_text Scenario.admin Scenario.alice file_name = true ∧
  active_chats Scenario.chatting !! "1" = Some "2" ∧
  relays (out_of (message_handler AsciiText.methods Scenario.admin
                    Scenario.online Scenario.alice
                    "trip" Scenario.chatting (Scenario.awaiting file_name)))
  = false.
Proof.
  split; [reflexivity|]. split; [reflexivity|]. split; [reflexivity|].
  apply (proj1 (stage_consumes_matching_input AsciiText.methods Scenario.admin Scenario.online
                  Scenario.no_cache "01.01.2025" Scenario.alice Scenario.chatting
                  (Scenario.awaiting file_name))
           file_name "trip" eq_refl eq_refl).
Defined.


(** * Further properties of the handlers *)

(** ** The chat handshake, step by step *)

Lemma session_pair_removed (m : gmap string string) (x y : string) :
  m !! x = None → m !! y = None →
  delete y (delete x (<[x := y]> (<[y := x]> m))) = m.
Proof.
  intros Hx Hy. apply map_eq. intros k.
  destruct (decide (k = y)) as [->|Hky]; [by rewrite lookup_delete_eq|].
  rewrite lookup_delete_ne by done.
  destruct (decide (k = x)) as [->|Hkx]; [by rewrite lookup_delete_eq|].
  rewrite lookup_delete_ne by done.
  by rewrite !lookup_insert_ne.
Qed.

(** X1.  A request that is cancelled by its sender leaves no trace: the
    document is the one before the request, and the notification is
    retracted when the transport allows it. *)
Theorem request_then_cancel
    (deliver : string -> option Z) (retract : string -> Z -> bool)
    (a : Sender) (b : string) (d : Data) (ctx : UserData) (mid : Z) :
  ¬ has_request (user_id a) d → ¬ has_session (user_id a) d →
  deliver b = Some mid →
  let r1 := start_chat_request deliver a b d ctx in
  let r2 := cancel_chat_request retract a b (data_of r1) (ctx_of r1) in
  data_of r2 = d ∧
  out_of r2 =
    (if retract b mid then [Delete b mid] else [])
      ++ [Reply (ChatRequestCancelled (username_or drug b d))].
Proof.
  intros Hreq Hact Hok. cbv zeta.
  rewrite (start_chat_request_stores deliver a b d ctx mid) by done.
  unfold cancel_chat_request, data_of, out_of. simpl.
  rewrite lookup_insert_eq. simpl. rewrite String.eqb_refl. simpl.
  split; [|done].
  rewrite delete_insert_id; [by destruct d|].
  unfold has_request in Hreq. by apply eq_None_not_Some.
Qed.

Lemma request_then_cancel_witness :
  ¬ has_request "1" Scenario.registered ∧
  ¬ has_session "1" Scenario.registered ∧
  Scenario.online "2" = Some 100%Z ∧
  data_of (cancel_chat_request Scenario.retract_ok Scenario.alice "2"
             (data_of (start_chat_request Scenario.online Scenario.alice "2"
                         Scenario.registered empty_user_data))
             empty_user_data)
  = Scenario.registered.
Proof.
  assert (H2 : ¬ has_request "1" Scenario.registered) by (intros [? [=]]).
  assert (H3 : ¬ has_session "1" Scenario.registered) by (intros [? [=]]).
  split; [exact H2|]. split; [exact H3|]. split; [reflexivity|].
  apply (request_then_cancel Scenario.online Scenario.retract_ok Scenario.alice
           "2" Scenario.registered empty_user_data 100%Z H2 H3 eq_refl).
Defined.

(** X2.  A cancel is honoured only for a request that exists and is
    addressed as the button says: otherwise nothing is saved and the
    answer is that the request is gone.  Whether the notification could be
    retracted makes no difference to what is saved. *)
Theorem cancel_chat_request_guard
    (retract retract' : string -> Z -> bool) (a : Sender) (b : string)
    (d : Data) (ctx : UserData) :
  ((∀ req, chat_requests d !! user_id a = Some req → to_id req ≠ b) →
   cancel_chat_request retract a b d ctx = (d, ctx, [Reply ChatRequestStale])) ∧
  data_of (cancel_chat_request retract a b d ctx)
  = data_of (cancel_chat_request retract' a b d ctx).
Proof.
  unfold cancel_chat_request, data_of. split.
  - intros H. destruct (chat_requests d !! user_id a) as [req|] eqn:E; [|done].
    destruct (String.eqb_spec (to_id req) b) as [Heq|]; [|done].
    by destruct (H req).
  - destruct (chat_requests d !! user_id a) as [req|]; [|done].
    by destruct (String.eqb (to_id req) b).
Qed.

Lemma cancel_chat_request_guard_witness :
  (∀ req, chat_requests Scenario.registered !! user_id Scenario.alice = Some req →
          to_id req ≠ "2") ∧
  cancel_chat_request Scenario.retract_ok Scenario.alice "2"
    Scenario.registered empty_user_data
  = (Scenario.registered, empty_user_data, [Reply ChatRequestStale]).
Proof.
  assert (H : ∀ req, chat_requests Scenario.registered !! user_id Scenario.alice
                     = Some req → to_id req ≠ "2") by (intros ? [=]).
  split; [exact H|].
  apply (proj1 (cancel_chat_request_guard Scenario.retract_ok Scenario.retract_ok
                  Scenario.alice "2" Scenario.registered empty_user_data) H).
Defined.

(** X3.  Accepting installs the session in both directions and removes the
    requester's request, whether or not there was one; every other session
    and request, and the rest of the document, stay as they were. *)
Theorem accept_chat_installs_session
    (deliver : string -> option Z) (b : Sender) (a : string)
    (d : Data) (ctx : UserData) :
  let d' := data_of (accept_chat deliver b a d ctx) in
  active_chats d' !! user_id b = Some a ∧
  active_chats d' !! a = Some (user_id b) ∧
  chat_requests d' !! a = None ∧
  (∀ k, k ≠ a → k ≠ user_id b → active_chats d' !! k = active_chats d !! k) ∧
  (∀ k, k ≠ a → chat_requests d' !! k = chat_requests d !! k) ∧
  users d' = users d ∧ galleries d' = galleries d ∧ invites d' = invites d ∧
  banned_users d' = banned_users d.
Proof.
  simpl. unfold accept_chat, data_of. simpl.
  repeat split.
  - destruct (decide (a = user_id b)) as [->|Hne].
    + by rewrite lookup_insert_eq.
    + rewrite lookup_insert_ne by done. by rewrite lookup_insert_eq.
  - by rewrite lookup_insert_eq.
  - by rewrite lookup_delete_eq.
  - intros k Ha Hb. by rewrite !lookup_insert_ne.
  - intros k Ha. by rewrite lookup_delete_ne.
Qed.

Lemma accept_chat_installs_session_witness :
  "3" ≠ "1" ∧ "3" ≠ user_id Scenario.bob ∧
  active_chats (data_of (accept_chat Scenario.online Scenario.bob "1"
                           Scenario.chatting empty_user_data)) !! "3"
  = active_chats Scenario.chatting !! "3".
Proof.
  assert (H1 : "3" ≠ "1") by (intros [=]).
  assert (H2 : "3" ≠ user_id Scenario.bob) by (intros [=]).
  split; [exact H1|]. split; [exact H2|].
  apply (accept_chat_installs_session Scenario.online Scenario.bob "1"
           Scenario.chatting empty_user_data); [exact H1|exact H2].
Defined.

(** X4.  Request, accept, end: when neither side was in a session and the
    requester had no request out, the three steps bring the document back
    to where it started, whichever side ends the chat. *)
Theorem request_accept_end_round_trip
    (deliver : string -> option Z) (retract : string -> Z -> bool)
    (a b : Sender) (d : Data) (mid : Z) :
  ¬ has_request (user_id a) d → ¬ has_session (user_id a) d →
  ¬ has_session (user_id b) d → deliver (user_id b) = Some mid →
  hs_run deliver retract
    [Request a (user_id b); Accept b (user_id a); EndChat a (user_id b)] d = d ∧
  hs_run deliver retract
    [Request a (user_id b); Accept b (user_id a); EndChat b (user_id a)] d = d.
Proof.
  intros Hreq Ha Hb Hok. unfold hs_run. simpl.
  rewrite (start_chat_request_stores deliver a (user_id b) d _ mid) by done.
  unfold accept_chat, end_chat, data_of, set_active_chats, set_chat_requests.
  simpl. unfold has_request, has_session in *.
  apply eq_None_not_Some in Hreq, Ha, Hb.
  rewrite delete_insert_id by done.
  split.
  - rewrite session_pair_removed by done. by destruct d.
  - destruct (decide (user_id a = user_id b)) as [E|Hne].
    + rewrite E in *. rewrite session_pair_removed by done. by destruct d.
    + rewrite (insert_insert_ne _ (user_id a) (user_id b)) by done.
      rewrite session_pair_removed by done. by destruct d.
Qed.

Lemma request_accept_end_round_trip_witness :
  ¬ has_request "1" Scenario.registered ∧
  ¬ has_session "1" Scenario.registered ∧
  ¬ has_session "2" Scenario.registered ∧
  Scenario.online "2" = Some 100%Z ∧
  hs_run Scenario.online Scenario.retract_ok
    [Request Scenario.alice "2"; Accept Scenario.bob "1"; EndChat Scenario.alice "2"]
    Scenario.registered = Scenario.registered.
Proof.
  assert (H1 : ¬ has_request "1" Scenario.registered) by (intros [? [=]]).
  assert (H2 : ¬ has_session "1" Scenario.registered) by (intros [? [=]]).
  assert (H3 : ¬ has_session "2" Scenario.registered) by (intros [? [=]]).
  split; [exact H1|]. split; [exact H2|]. split; [exact H3|].
  split; [reflexivity|].
  apply (proj1 (request_accept_end_round_trip Scenario.online Scenario.retract_ok
                  Scenario.alice Scenario.bob Scenario.registered 100%Z
                  H1 H2 H3 eq_refl)).
Defined.

(** X5.  While a request is pending, a second request by the same sender
    is refused and saves nothing; once the addressee declines, the document
    is back to what it was and the sender's next request is stored. *)
Theorem second_request_waits_for_decline
    (deliver : string -> option Z) (a b : Sender) (c : string)
    (d : Data) (ctx : UserData) (mid mid' : Z) :
  ¬ has_request (user_id a) d → ¬ has_session (user_id a) d →
  deliver (user_id b) = Some mid → deliver c = Some mid' →
  let d1 := data_of (start_chat_request deliver a (user_id b) d ctx) in
  let d2 := data_of (decline_chat b (user_id a) d1 ctx) in
  start_chat_request deliver a c d1 ctx
  = (d1, ctx, [Reply (RequestAlreadyActive (username_or drug (user_id b) d))]) ∧
  d2 = d ∧
  chat_requests (data_of (start_chat_request deliver a c d2 ctx)) !! user_id a
  = Some (mkChatRequest c mid').
Proof.
  intros Hreq Hact Hb Hc. cbv zeta.
  rewrite (start_chat_request_stores deliver a (user_id b) d ctx mid) by done.
  assert (Hd2 : data_of (decline_chat b (user_id a)
                  (set_chat_requests
                     (<[user_id a := mkChatRequest (user_id b) mid]> (chat_requests d))
                     d) ctx) = d).
  { unfold decline_chat, data_of. simpl.
    rewrite delete_insert_id; [by destruct d|].
    by apply eq_None_not_Some. }
  split.
  - unfold start_chat_request. simpl. by rewrite lookup_insert_eq.
  - rewrite Hd2. split; [done|].
    rewrite (start_chat_request_stores deliver a c d ctx mid') by done.
    apply lookup_insert_eq.
Qed.

Lemma second_request_waits_for_decline_witness :
  ¬ has_request "1" Scenario.registered ∧
  ¬ has_session "1" Scenario.registered ∧
  Scenario.online "2" = Some 100%Z ∧ Scenario.online "3" = Some 100%Z ∧
  data_of (decline_chat Scenario.bob "1"
             (data_of (start_chat_request Scenario.online Scenario.alice "2"
                         Scenario.registered empty_user_data))
             empty_user_data)
  = Scenario.registered.
Proof.
  assert (H1 : ¬ has_request "1" Scenario.registered) by (intros [? [=]]).
  assert (H2 : ¬ has_session "1" Scenario.registered) by (intros [? [=]]).
  split; [exact H1|]. split; [exact H2|]. split; [reflexivity|].
  split; [reflexivity|].
  apply (second_request_waits_for_decline Scenario.online Scenario.alice
           Scenario.bob "3" Scenario.registered empty_user_data 100%Z 100%Z
           H1 H2 eq_refl eq_refl).
Defined.

(** X6.  Ending a chat removes the session entry of the user and of the
    named partner and nothing else.  The partner is not checked against the
    stored one: if the named partner is in a session with a third user,
    that user is left with an entry that points to somebody without a
    session. *)
Theorem end_chat_removes_both
    (deliver : string -> option Z) (x : Sender) (y : string)
    (d : Data) (ctx : UserData) :
  let d' := data_of (end_chat deliver x y d ctx) in
  ¬ has_session (user_id x) d' ∧ ¬ has_session y d' ∧
  (∀ k, k ≠ user_id x → k ≠ y → active_chats d' !! k = active_chats d !! k) ∧
  chat_requests d' = chat_requests d ∧
  (∀ z, z ≠ user_id x → z ≠ y → active_chats d !! z = Some y →
        active_chats d' !! z = Some y ∧ ¬ has_session y d').
Proof.
  simpl. unfold end_chat, data_of, has_session. simpl.
  assert (Hy : ¬ is_Some (delete y (delete (user_id x) (active_chats d)) !! y)).
  { rewrite lookup_delete_eq. by intros [? [=]]. }
  split; [|split; [done|split; [|split; [done|]]]].
  - destruct (decide (y = user_id x)) as [->|Hne]; [done|].
    rewrite lookup_delete_ne, lookup_delete_eq by done. by intros [? [=]].
  - intros k Hx Hk. by rewrite !lookup_delete_ne.
  - intros z Hx Hz Hzy. split; [|done]. by rewrite !lookup_delete_ne.
Qed.

Lemma end_chat_removes_both_witness :
  let d := set_active_chats {[ "2" := "3"; "3" := "2" ]} Scenario.registered in
  "3" ≠ user_id Scenario.alice ∧ "3" ≠ "2" ∧
  active_chats d !! "3" = Some "2" ∧
  active_chats (data_of (end_chat Scenario.online Scenario.alice "2" d
                           empty_user_data)) !! "3" = Some "2" ∧
  ¬ has_session "2" (data_of (end_chat Scenario.online Scenario.alice "2" d
                                empty_user_data)).
Proof.
  cbv zeta.
  assert (H1 : "3" ≠ user_id Scenario.alice) by (intros [=]).
  assert (H2 : "3" ≠ "2") by (intros [=]).
  split; [exact H1|]. split; [exact H2|]. split; [reflexivity|].
  apply (end_chat_removes_both Scenario.online Scenario.alice "2"
           (set_active_chats {[ "2" := "3"; "3" := "2" ]} Scenario.registered)
           empty_user_data); [exact H1|exact H2|reflexivity].
Defined.



(** ** Invites and the friendship graph *)

Lemma od_get_elem {V} (k : string) (v : V) (d : odict V) :
  (k, v) ∈ d → is_Some (od_get k d).
Proof.
  induction d as [|[k0 v0] d IH]; simpl.
  - by intros ?%elem_of_nil.
  - intros [[= -> ->]|Hin]%elem_of_cons.
    + by rewrite String.eqb_refl.
    + destruct (String.eqb k0 k); [done|by apply IH].
Qed.

(** The document saved by a successful invite. *)
Lemma handle_friend_username_stores (py : PyStr)
    (deliver : string -> option Z) (a : Sender) (txt t : string)
    (d : Data) (ctx : UserData) :
  waiting_for ctx = Some friend_username → t ≠ "" →
  resolve_handle py (Py.lstrip_at (str_strip py txt)) (users d) = Some t →
  t ≠ user_id a → t ∉ friends_of (user_id a) d →
  data_of (handle_friend_username py deliver a txt d ctx)
  = set_invites (<[t := mkInvite (user_id a) (get_username a)]> (invites d)) d.
Proof.
  intros Hstage Ht Hres Hself Hfr.
  unfold handle_friend_username, data_of. rewrite Hstage, Hres.
  rewrite bool_decide_eq_true_2 by done.
  rewrite (truthy_Some t) by done. simpl.
  destruct (String.eqb_spec t (user_id a)); [done|].
  destruct (mem t (friends_of (user_id a) d)) eqn:Hm.
  { by apply mem_true in Hm. }
  cbn zeta. by destruct (deliver t).
Qed.

(** X8.  Declining empties the invite slot of the user who declines and
    touches nothing else.  The sender named on the button plays no part:
    whatever invite is in the slot goes.  Declining twice is the same as
    declining once. *)
Theorem decline_invite_clears_own_slot
    (b : Sender) (from from' : string) (d : Data) (ctx : UserData) :
  let d' := data_of (decline_invite b from d ctx) in
  invites d' !! user_id b = None ∧
  (∀ k, k ≠ user_id b → invites d' !! k = invites d !! k) ∧
  users d' = users d ∧ galleries d' = galleries d ∧
  decline_invite b from' d ctx = decline_invite b from d ctx ∧
  data_of (decline_invite b from d' ctx) = d'.
Proof.
  simpl. unfold decline_invite, data_of, set_invites. simpl.
  repeat split.
  - apply lookup_delete_eq.
  - intros k Hk. by apply lookup_delete_ne.
  - by rewrite delete_delete_eq.
Qed.

Lemma decline_invite_clears_own_slot_witness :
  "2" ≠ user_id Scenario.carol ∧
  invites (data_of (decline_invite Scenario.carol "1" Scenario.invited
                      empty_user_data)) !! "2"
  = invites Scenario.invited !! "2".
Proof.
  assert (H : "2" ≠ user_id Scenario.carol) by (intros [=]).
  split; [exact H|].
  apply (decline_invite_clears_own_slot Scenario.carol "1" "1" Scenario.invited
           empty_user_data); exact H.
Defined.

(** X9.  An invite that its addressee declines is undone: when the
    addressee's slot was empty before, the document after invite and
    decline is the one before the invite.  In between, the invite names the
    sender, and the addressee's [/start] shows it instead of the menu. *)
Theorem invite_then_decline (py : PyStr)
    (ADMIN_ID : string) (deliver : string -> option Z) (a t : Sender)
    (txt : string) (d : Data) (ctx ctx' : UserData) :
  waiting_for ctx = Some friend_username → ids_nonempty (users d) = true →
  resolve_handle py (Py.lstrip_at (str_strip py txt)) (users d) = Some (user_id t) →
  user_id t ≠ user_id a → user_id t ∉ friends_of (user_id a) d →
  invites d !! user_id t = None →
  let d1 := data_of (handle_friend_username py deliver a txt d ctx) in
  invites d1 !! user_id t = Some (mkInvite (user_id a) (get_username a)) ∧
  (is_banned (user_id t) d = false →
   start ADMIN_ID t d1 ctx'
   = (d1, ctx', [Reply (PendingInvite (user_id a) (get_username a))])) ∧
  data_of (decline_invite t (user_id a) d1 ctx') = d.
Proof.
  intros Hstage Hids Hres Hself Hfr Hslot. cbv zeta.
  destruct (resolve_handle_Some py _ _ _ Hres) as (r & Hin & _).
  rewrite (handle_friend_username_stores py deliver a txt (user_id t) d ctx)
    by eauto using ids_nonempty_elem.
  split; [apply lookup_insert_eq|]. split.
  - intros Hban. unfold start, show_pending_invites, is_banned in *. simpl.
    rewrite Hban.
    unfold od_mem. destruct (od_get_elem _ _ _ Hin) as [r' ->]. simpl.
    by rewrite lookup_insert_eq.
  - unfold decline_invite, data_of, set_invites. simpl.
    rewrite delete_insert_id by done. by destruct d.
Qed.

Lemma invite_then_decline_witness :
  waiting_for (Scenario.awaiting friend_username) = Some friend_username ∧
  ids_nonempty (users Scenario.registered) = true ∧
  resolve_handle AsciiText.methods
    (Py.lstrip_at (str_strip AsciiText.methods "@bob")) (users Scenario.registered)
  = Some (user_id Scenario.bob) ∧
  user_id Scenario.bob ≠ user_id Scenario.alice ∧
  (user_id Scenario.bob ∉ friends_of (user_id Scenario.alice) Scenario.registered) ∧
  invites Scenario.registered !! user_id Scenario.bob = None ∧
  data_of (decline_invite Scenario.bob (user_id Scenario.alice)
             (data_of (handle_friend_username AsciiText.methods Scenario.online Scenario.alice
                         "@bob" Scenario.registered
                         (Scenario.awaiting friend_username)))
             empty_user_data)
  = Scenario.registered.
Proof.
  assert (H1 : user_id Scenario.bob ≠ user_id Scenario.alice) by (intros [=]).
  assert (H2 : user_id Scenario.bob
               ∉ friends_of (user_id Scenario.alice) Scenario.registered).
  { simpl. apply not_elem_of_nil. }
  split; [reflexivity|]. split; [reflexivity|]. split; [reflexivity|].
  split; [exact H1|]. split; [exact H2|]. split; [reflexivity|].
  apply (invite_then_decline AsciiText.methods Scenario.admin Scenario.online Scenario.alice
           Scenario.bob "@bob" Scenario.registered
           (Scenario.awaiting friend_username) empty_user_data
           eq_refl eq_refl eq_refl H1 H2 eq_refl).
Defined.

(** X10.  The handle is resolved to the first user, in the order of
    registration, whose stored handle equals it up to case; and two
    spellings that differ only in case resolve alike. *)
Theorem resolve_handle_first_match (py : PyStr) (handle : string) (us : odict User) :
  (∀ t, resolve_handle py handle us = Some t ↔
        ∃ before r after,
          us = before ++ (t, r) :: after ∧ handle_matches py handle r ∧
          ∀ uid r', (uid, r') ∈ before → ¬ handle_matches py handle r') ∧
  (∀ handle', str_lower py handle' = str_lower py handle →
              resolve_handle py handle' us = resolve_handle py handle us).
Proof.
  unfold handle_matches. split.
  - intros t. induction us as [|[k v] us IH]; simpl.
    + split; [done|]. intros (before & r & after & E & _). by destruct before.
    + destruct (String.eqb_spec (str_lower py (default "" (username v)))
                  (str_lower py handle)) as [E|E].
      * split.
        -- intros [= <-]. exists [], v, us. split; [done|]. split; [done|].
           intros ? ? ?%elem_of_nil. done.
        -- intros (before & r & after & Hus & Hr & Hb).
           destruct before as [|[k0 v0] before]; simpl in Hus; simplify_eq.
           ++ done.
           ++ exfalso. eapply Hb; [by left|done].
      * rewrite IH. split.
        -- intros (before & r & after & -> & Hr & Hb).
           exists ((k, v) :: before), r, after. split; [done|]. split; [done|].
           intros uid r' [[= -> ->]|Hin]%elem_of_cons; [done|].
           by apply (Hb uid r').
        -- intros (before & r & after & Hus & Hr & Hb).
           destruct before as [|[k0 v0] before]; simpl in Hus; simplify_eq.
           exists before, r, after.
           split; [done|]. split; [done|]. intros uid r' Hin.
           apply (Hb uid r'). by right.
  - intros handle' E. induction us as [|[k v] us IH]; simpl; [done|].
    by rewrite E, IH.
Qed.

Lemma resolve_handle_first_match_witness :
  str_lower AsciiText.methods "BOB" = str_lower AsciiText.methods "bob" ∧
  resolve_handle AsciiText.methods "BOB" (users Scenario.registered)
  = resolve_handle AsciiText.methods "bob" (users Scenario.registered).
Proof.
  split; [reflexivity|].
  apply (proj2 (resolve_handle_first_match AsciiText.methods "bob" (users Scenario.registered))
           "BOB" eq_refl).
Defined.

Lemma od_get_set {V} (k k' : string) (v : V) (d : odict V) :
  od_get k' (od_set k v d) = if decide (k = k') then Some v else od_get k' d.
Proof.
  case_decide as E; [subst; apply od_get_set_eq|by apply od_get_set_ne].
Qed.

Lemma ensure_user_other (uid k : string) (r : User) (us : odict User) :
  k ≠ uid → od_get k (ensure_user uid r us) = od_get k us.
Proof.
  intros Hne. unfold ensure_user. destruct (od_mem uid us); [done|].
  by apply od_get_set_ne.
Qed.

Lemma append_friend_other (owner friend k : string) (us : odict User) :
  k ≠ owner → od_get k (append_friend owner friend us) = od_get k us.
Proof.
  intros Hne. unfold append_friend.
  destruct (od_get owner us) as [r|]; [|done].
  destruct (mem friend (friends r)); [done|]. by apply od_get_set_ne.
Qed.

Lemma friend_in_ensure_fresh (uid : string) (n : option string)
    (us : odict User) (o x : string) :
  friend_in (ensure_user uid (mkUser n [] ∅) us) o x ↔ friend_in us o x.
Proof.
  unfold ensure_user, od_mem, friend_in.
  destruct (od_get uid us) eqn:E; [done|].
  setoid_rewrite od_get_set. case_decide as Hk.
  - subst. rewrite E. split; intros (r & [=] & Hm). by subst.
  - done.
Qed.

Lemma friend_in_append_friend (owner friend : string) (us : odict User)
    (o x : string) :
  is_Some (od_get owner us) →
  friend_in (append_friend owner friend us) o x ↔
  friend_in us o x ∨ (o = owner ∧ x = friend).
Proof.
  intros Hown. split.
  - destruct Hown as [r0 Hr0]. unfold append_friend, friend_in. rewrite Hr0.
    destruct (mem friend (friends r0)) eqn:Hm; [by left|].
    setoid_rewrite od_get_set. case_decide as Hk.
    + subst. intros (r & [= <-] & Hx). simpl in Hx.
      apply mem_true, elem_of_app in Hx as [Hx|Hx].
      * left. exists r0. by rewrite mem_true.
      * right. apply list_elem_of_singleton in Hx. done.
    + by left.
  - intros [H|[-> ->]].
    + by apply append_friend_keeps.
    + by apply append_friend_adds.
Qed.

(** The edges after an accept: the old ones and the new pair. *)
Lemma accept_invite_edges (u : Sender) (a : string) (d : Data) (o x : string) :
  friend_in (users (accept_invite_data u a d)) o x ↔
  friend_in (users d) o x ∨ (o = user_id u ∧ x = a) ∨ (o = a ∧ x = user_id u).
Proof.
  unfold accept_invite_data. simpl.
  set (us1 := ensure_user (user_id u) (fresh_user u) (users d)).
  set (us2 := ensure_user a _ us1).
  assert (H1 : is_Some (od_get (user_id u) us2)).
  { unfold us2. rewrite ensure_user_keeps; apply ensure_user_self. }
  assert (H2 : is_Some (od_get a us2)) by apply ensure_user_self.
  rewrite friend_in_append_friend by by apply append_friend_is_Some.
  rewrite friend_in_append_friend by done.
  unfold us2, us1, fresh_user. rewrite !friend_in_ensure_fresh. tauto.
Qed.

(** X11.  Accepting an invite keeps the friendship graph symmetric: if
    every edge had its mirror image before, every edge has it after. *)
Theorem accept_invite_keeps_symmetry
    (deliver : string -> option Z) (b : Sender) (a : string)
    (d : Data) (ctx : UserData) :
  friends_symmetric (users d) →
  friends_symmetric (users (data_of (accept_invite deliver b a d ctx))).
Proof.
  intros Hsym o x. unfold accept_invite, data_of. cbn [fst].
  rewrite !accept_invite_edges. intros [H|[[-> ->]|[-> ->]]]; auto.
Qed.

Lemma accept_invite_keeps_symmetry_witness :
  friends_symmetric (users Scenario.registered) ∧
  friends_symmetric
    (users (data_of (accept_invite Scenario.online Scenario.bob "1"
                       Scenario.registered empty_user_data))).
Proof.
  assert (H : friends_symmetric (users Scenario.registered)).
  { intros o x (r & Hr & Hx). simpl in Hr.
    repeat (case_match; simplify_eq; try done). }
  split; [exact H|].
  apply (accept_invite_keeps_symmetry Scenario.online Scenario.bob "1"
           Scenario.registered empty_user_data H).
Defined.

(** X12.  Accepting an invite never puts a friend into a list twice: friend
    lists without repetition stay without repetition, also when the same
    invite is accepted again. *)
Theorem accept_invite_keeps_nodup
    (deliver : string -> option Z) (b : Sender) (a : string)
    (d : Data) (ctx : UserData) :
  friends_nodup (users d) →
  friends_nodup (users (data_of (accept_invite deliver b a d ctx))).
Proof.
  unfold accept_invite, data_of, accept_invite_data. simpl.
  assert (Hens : ∀ uid n us, friends_nodup us →
            friends_nodup (ensure_user uid (mkUser n [] ∅) us)).
  { intros uid n us H k r. unfold ensure_user. destruct (od_mem uid us); [apply H|].
    rewrite od_get_set. case_decide; [|apply H]. intros [= <-]. constructor. }
  assert (Happ : ∀ o f us, friends_nodup us → friends_nodup (append_friend o f us)).
  { intros o f us H k r. unfold append_friend.
    destruct (od_get o us) as [r0|] eqn:Hr0; [|apply H].
    destruct (mem f (friends r0)) eqn:Hm; [apply H|].
    rewrite od_get_set. case_decide; [|apply H]. intros [= <-]. simpl.
    apply NoDup_app. split; [by apply (H o)|]. split; [|apply NoDup_singleton].
    intros y Hy ->%list_elem_of_singleton. apply mem_true in Hy. congruence. }
  intros H. apply Happ, Happ, Hens, Hens, H.
Qed.

Lemma accept_invite_keeps_nodup_witness :
  friends_nodup (users Scenario.befriended) ∧
  friends_nodup
    (users (data_of (accept_invite Scenario.online Scenario.bob "1"
                       Scenario.befriended empty_user_data))).
Proof.
  assert (H : friends_nodup (users Scenario.befriended)).
  { intros k r Hr. simpl in Hr.
    repeat (case_match; simplify_eq; simpl;
            try apply NoDup_singleton; try apply NoDup_nil_2). }
  split; [exact H|].
  apply (accept_invite_keeps_nodup Scenario.online Scenario.bob "1"
           Scenario.befriended empty_user_data H).
Defined.

(** X13.  An accept changes only the two users involved, the accepting
    user's invite slot and, if it is missing, the pair's gallery.  A
    gallery that exists is left as it is, items included; the stored
    handles of the two users are not rewritten; chat requests, sessions and
    the ban list are untouched. *)
Theorem accept_invite_frame
    (deliver : string -> option Z) (b : Sender) (a : string)
    (d : Data) (ctx : UserData) :
  let d' := data_of (accept_invite deliver b a d ctx) in
  (∀ k, k ≠ user_id b → k ≠ a → od_get k (users d') = od_get k (users d)) ∧
  (∀ k r, od_get k (users d) = Some r →
     ∃ r', od_get k (users d') = Some r' ∧ username r' = username r ∧
           nicknames r' = nicknames r ∧ extends (friends r) (friends r')) ∧
  (∀ g, galleries d !! gallery_id (user_id b) a = Some g →
        galleries d' = galleries d) ∧
  (∀ k, k ≠ gallery_id (user_id b) a → galleries d' !! k = galleries d !! k) ∧
  (∀ k, k ≠ user_id b → invites d' !! k = invites d !! k) ∧
  chat_requests d' = chat_requests d ∧ active_chats d' = active_chats d ∧
  banned_users d' = banned_users d.
Proof.
  simpl. unfold accept_invite, data_of, accept_invite_data. simpl.
  assert (Happ : ∀ o f us k r, od_get k us = Some r →
            ∃ r', od_get k (append_friend o f us) = Some r' ∧
                  username r' = username r ∧ nicknames r' = nicknames r ∧
                  extends (friends r) (friends r')).
  { intros o f us k r Hr. unfold append_friend.
    destruct (od_get o us) as [r0|] eqn:Hr0;
      [|exists r; repeat split; [done|by exists []; rewrite app_nil_r]].
    destruct (mem f (friends r0));
      [exists r; repeat split; [done|by exists []; rewrite app_nil_r]|].
    rewrite od_get_set. case_decide as E.
    - subst. rewrite Hr in Hr0. injection Hr0 as ->.
      eexists. split; [done|]. simpl. repeat split. by exists [f].
    - exists r. repeat split; [done|]. exists []. by rewrite app_nil_r. }
  split; [|split; [|split; [|split; [|split]]]]; try done.
  - intros k Hb Ha.
    by rewrite !append_friend_other, !ensure_user_other.
  - intros k r Hr.
    assert (H2 : od_get k (ensure_user a (mkUser (Some "unknown") [] ∅)
                   (ensure_user (user_id b) (fresh_user b) (users d))) = Some r).
    { rewrite !ensure_user_keeps; [done|by rewrite Hr|].
      rewrite ensure_user_keeps; by rewrite Hr. }
    destruct (Happ (user_id b) a _ k r H2) as (r1 & Hr1 & Hn1 & Hk1 & [m1 Hf1]).
    destruct (Happ a (user_id b) _ k r1 Hr1) as (r2 & Hr2 & Hn2 & Hk2 & [m2 Hf2]).
    exists r2. split; [done|]. split; [congruence|]. split; [congruence|].
    exists (m1 ++ m2). by rewrite Hf2, Hf1, app_assoc.
  - intros g Hg. unfold ensure_gallery. by rewrite Hg.
  - intros k Hk. unfold ensure_gallery.
    destruct (galleries d !! gallery_id (user_id b) a); [done|].
    by rewrite lookup_insert_ne.
  - intros k Hk. by rewrite lookup_delete_ne.
Qed.

Lemma accept_invite_frame_witness :
  "3" ≠ user_id Scenario.bob ∧ "3" ≠ "1" ∧
  od_get "3" (users (data_of (accept_invite Scenario.online Scenario.bob "1"
                                Scenario.invited empty_user_data)))
  = od_get "3" (users Scenario.invited).
Proof.
  assert (H1 : "3" ≠ user_id Scenario.bob) by (intros [=]).
  assert (H2 : "3" ≠ "1") by (intros [=]).
  split; [exact H1|]. split; [exact H2|].
  apply (accept_invite_frame Scenario.online Scenario.bob "1" Scenario.invited
           empty_user_data); [exact H1|exact H2].
Defined.

(** ** The add-file flow and the gallery *)

Lemma files_of_append (gid : string) (ms : list string) (item : FileInfo)
    (d : Data) :
  files_of gid
    (set_galleries (append_file gid item (ensure_gallery gid ms (galleries d))) d)
  = files_of gid d ++ [item].
Proof.
  unfold files_of, append_file, ensure_gallery. simpl.
  destruct (galleries d !! gid) as [g|] eqn:E.
  - rewrite E. by rewrite lookup_insert_eq.
  - rewrite lookup_insert_eq. by rewrite lookup_insert_eq.
Qed.

Lemma files_of_append_other (gid k : string) (ms : list string) (item : FileInfo)
    (d : Data) :
  k ≠ gid →
  galleries
    (set_galleries (append_file gid item (ensure_gallery gid ms (galleries d))) d)
    !! k = galleries d !! k.
Proof.
  intros Hk. unfold append_file, ensure_gallery. simpl.
  destruct (galleries d !! gid) as [g|] eqn:E.
  - rewrite E. by rewrite lookup_insert_ne.
  - rewrite lookup_insert_eq. by rewrite !lookup_insert_ne.
Qed.

(** What [handle_file] does at its stage with a friend chosen and a photo,
    a document or a video. *)
Lemma handle_file_adds
    (deliver : string -> option Z)
    (cache_locally : string -> string -> option string) (today : string)
    (u : Sender) (c : content) (d : Data) (ctx : UserData)
    (f : string) (ty : file_type) (fid : string) :
  waiting_for ctx = Some file → file_friend_id ctx = Some f → f ≠ "" →
  classify c = Some (ty, fid) →
  let gid := gallery_id (user_id u) f in
  let item :=
    mkFileInfo ty fid (default "Без названия" (ud_file_name ctx))
               (default "" (ud_file_comment ctx)) (get_username u) today
               (cache_locally gid fid) [] in
  handle_file deliver cache_locally today u c d ctx
  = (set_galleries
       (append_file gid item (ensure_gallery gid [user_id u; f] (galleries d))) d,
     set_file_name None (set_file_comment None (set_waiting_for None ctx)),
     try_send deliver f (NewFileNotice (get_username u) item) ++ [Reply FileAdded]).
Proof.
  intros Hst Hf Hne Hc. unfold handle_file. rewrite Hst. simpl.
  rewrite Hf, (truthy_Some f), Hc by done. done.
Qed.

(** A text message at the file-name stage, and at the comment stage. *)
Lemma message_handler_file_name (py : PyStr)
    (ADMIN_ID : string) (deliver : string -> option Z) (u : Sender)
    (txt : string) (d : Data) (ctx : UserData) :
  waiting_for ctx = Some file_name →
  message_handler py ADMIN_ID deliver u txt d ctx = handle_file_name py txt d ctx.
Proof.
  intros H. unfold message_handler.
  rewrite handle_admin_broadcast_declines by (by rewrite H). by rewrite H.
Qed.

Lemma message_handler_file_comment (py : PyStr)
    (ADMIN_ID : string) (deliver : string -> option Z) (u : Sender)
    (txt : string) (d : Data) (ctx : UserData) :
  waiting_for ctx = Some file_comment →
  message_handler py ADMIN_ID deliver u txt d ctx = handle_file_comment py txt d ctx.
Proof.
  intros H. unfold message_handler.
  rewrite handle_admin_broadcast_declines by (by rewrite H). by rewrite H.
Qed.

Lemma file_handler_file
    (ADMIN_ID : string) (deliver : string -> option Z)
    (cache_locally : string -> string -> option string) (today : string)
    (u : Sender) (c : content) (d : Data) (ctx : UserData) :
  waiting_for ctx = Some file →
  file_handler ADMIN_ID deliver cache_locally today u c d ctx
  = handle_file deliver cache_locally today u c d ctx.
Proof.
  intros H. unfold file_handler.
  rewrite handle_admin_broadcast_declines by (by rewrite H).
  by rewrite bool_decide_eq_true_2.
Qed.

(** X14.  The add-file flow from button to gallery: after the button, a
    name of at most 25 characters, a comment of at most 200 and a photo,
    the pair's gallery has one more item at its end, carrying the trimmed
    name and comment, the sender's handle as contributor and the photo's
    handle; the items that were there are unchanged and the cursor is
    clear. *)
Theorem add_file_flow (py : PyStr)
    (ADMIN_ID : string) (deliver : string -> option Z)
    (retract : string -> Z -> bool)
    (cache_locally : string -> string -> option string) (today : string)
    (u : Sender) (f nm cm fid : string) (cap : option string)
    (d : Data) (ctx : UserData) :
  f ≠ "" → (str_len py (str_strip py nm) ≤ 25)%nat →
  (str_len py (str_strip py cm) ≤ 200)%nat →
  let step e r :=
    handle py ADMIN_ID deliver retract cache_locally today u e (data_of r) (ctx_of r) in
  let r :=
    step (MediaMessage (Photo fid cap))
      (step (TextMessage cm)
         (step (TextMessage nm) (step (Button (add_file f)) (d, ctx, [])))) in
  let gid := gallery_id (user_id u) f in
  files_of gid (data_of r)
  = files_of gid d
      ++ [mkFileInfo photo fid (str_strip py nm) (str_strip py cm) (get_username u) today
            (cache_locally gid fid) []] ∧
  (∀ k, k ≠ gid → galleries (data_of r) !! k = galleries d !! k) ∧
  users (data_of r) = users d ∧
  waiting_for (ctx_of r) = None ∧
  Reply FileAdded ∈ out_of r.
Proof.
  intros Hf Hnm Hcm. cbv zeta. unfold data_of, ctx_of, out_of. cbn [fst snd].
  set (c1 := set_file_friend_id (Some f) (set_waiting_for (Some file_name) ctx)).
  assert (E1 : handle py ADMIN_ID deliver retract cache_locally today u
                 (Button (add_file f)) d ctx = (d, c1, [Reply AddFilePrompt]))
    by done.
  rewrite E1. cbn [fst snd].
  set (c2 := set_waiting_for (Some file_comment) (set_file_name (Some (str_strip py nm)) c1)).
  assert (E2 : handle py ADMIN_ID deliver retract cache_locally today u
                 (TextMessage nm) d c1
               = (d, c2, [Reply (FileNameAccepted (str_strip py nm))])).
  { unfold handle. rewrite message_handler_file_name by done.
    unfold handle_file_name. by rewrite (proj2 (Nat.ltb_ge _ _)). }
  rewrite E2. cbn [fst snd].
  set (c3 := set_waiting_for (Some file) (set_file_comment (Some (str_strip py cm)) c2)).
  assert (E3 : handle py ADMIN_ID deliver retract cache_locally today u
                 (TextMessage cm) d c2 = (d, c3, [Reply FileCommentSaved])).
  { unfold handle. rewrite message_handler_file_comment by done.
    unfold handle_file_comment. by rewrite (proj2 (Nat.ltb_ge _ _)). }
  rewrite E3. cbn [fst snd].
  unfold handle. rewrite file_handler_file by done.
  rewrite (handle_file_adds deliver cache_locally today u (Photo fid cap) d c3
             f photo fid) by done.
  cbn [fst snd]. split; [apply files_of_append|].
  split; [intros k Hk; by apply files_of_append_other|].
  split; [done|]. split; [done|].
  apply elem_of_app. right. by left.
Qed.

Lemma add_file_flow_witness :
  let step e r :=
    handle AsciiText.methods Scenario.admin Scenario.online Scenario.retract_ok
           Scenario.no_cache
           "01.01.2025" Scenario.alice e (data_of r) (ctx_of r) in
  let r :=
    step (MediaMessage (Photo "p1" None))
      (step (TextMessage "fun")
         (step (TextMessage "trip")
            (step (Button (add_file "2")) (Scenario.befriended, empty_user_data, [])))) in
  "2" ≠ "" ∧ (str_len AsciiText.methods (str_strip AsciiText.methods "trip") ≤ 25)%nat ∧
  (str_len AsciiText.methods (str_strip AsciiText.methods "fun") ≤ 200)%nat ∧
  files_of "1_2" (data_of r)
  = [mkFileInfo photo "p1" "trip" "fun" "alice" "01.01.2025" None []].
Proof.
  cbv zeta.
  assert (H1 : "2" ≠ "") by (intros [=]).
  assert (H2 : (str_len AsciiText.methods (str_strip AsciiText.methods "trip")
                ≤ 25)%nat) by (vm_compute; lia).
  assert (H3 : (str_len AsciiText.methods (str_strip AsciiText.methods "fun")
                ≤ 200)%nat) by (vm_compute; lia).
  split; [exact H1|]. split; [exact H2|]. split; [exact H3|].
  apply (add_file_flow AsciiText.methods Scenario.admin Scenario.online Scenario.retract_ok
           Scenario.no_cache "01.01.2025" Scenario.alice "2" "trip" "fun" "p1"
           None Scenario.befriended empty_user_data H1 H2 H3).
Defined.



(** X16.  An input that is too long ends the flow instead of asking again:
    a file name over 25 characters, a file comment over 200, a nickname
    over 20 or a new comment over 150 saves nothing and clears the stage, so
    the user's next text message is no longer taken by the flow and goes to
    the relay. *)
Theorem overlong_input_clears_stage (py : PyStr)
    (ADMIN_ID : string) (deliver : string -> option Z) (u : Sender)
    (txt next : string) (d : Data) (ctx : UserData) (s : stage) (bound : nat) :
  waiting_for ctx = Some s →
  (s, bound) ∈ [(file_name, 25); (file_comment, 200); (friend_nickname, 20);
                (file_new_comment, 150)] →
  (bound < str_len py (str_strip py txt))%nat →
  let r := message_handler py ADMIN_ID deliver u txt d ctx in
  data_of r = d ∧ ctx_of r = set_waiting_for None ctx ∧
  relays (out_of r) = false ∧
  message_handler py ADMIN_ID deliver u next d (ctx_of r)
  = relay deliver u (Text next) d (ctx_of r).
Proof.
  intros Hs Hin Hlen. cbv zeta.
  assert (Hr : message_handler py ADMIN_ID deliver u txt d ctx
               = message_handler py ADMIN_ID deliver u txt d ctx) by done.
  unfold message_handler at 2 in Hr.
  rewrite handle_admin_broadcast_declines, Hs in Hr
    by (rewrite Hs; intros [= ->]; repeat (apply elem_of_cons in Hin as [[=]|Hin]);
        by apply elem_of_nil in Hin).
  assert (Hnext : ∀ c, waiting_for c = None →
            message_handler py ADMIN_ID deliver u next d c
            = relay deliver u (Text next) d c).
  { intros c Hc. unfold message_handler.
    rewrite handle_admin_broadcast_declines by (by rewrite Hc). by rewrite Hc. }
  apply Nat.ltb_lt in Hlen.
  repeat (apply elem_of_cons in Hin as [[= -> ->]|Hin]);
    [..|by apply elem_of_nil in Hin];
    rewrite Hr.
  - unfold handle_file_name. rewrite Hlen. by rewrite Hnext.
  - unfold handle_file_comment. rewrite Hlen. by rewrite Hnext.
  - unfold handle_friend_nickname. rewrite Hlen. by rewrite Hnext.
  - unfold handle_new_comment. rewrite Hlen. by rewrite Hnext.
Qed.

Lemma overlong_input_clears_stage_witness :
  waiting_for (Scenario.awaiting file_name) = Some file_name ∧
  (25 < str_len AsciiText.methods
          (str_strip AsciiText.methods "a name that is much too long to be kept"))%nat ∧
  ctx_of (message_handler AsciiText.methods Scenario.admin Scenario.online Scenario.alice
            "a name that is much too long to be kept" Scenario.chatting
            (Scenario.awaiting file_name))
  = set_waiting_for None (Scenario.awaiting file_name).
Proof.
  assert (H : (25 < str_len AsciiText.methods
                      (str_strip AsciiText.methods
                         "a name that is much too long to be kept"))%nat)
    by (vm_compute; lia).
  split; [reflexivity|]. split; [exact H|].
  apply (overlong_input_clears_stage AsciiText.methods Scenario.admin
           Scenario.online Scenario.alice
           "a name that is much too long to be kept" "next" Scenario.chatting
           (Scenario.awaiting file_name) file_name 25 eq_refl).
  - by left.
  - exact H.
Defined.



(** ** Administration *)

Lemma remove_first_snoc (x : string) (l : list string) :
  x ∉ l → remove_first x (l ++ [x]) = l.
Proof.
  induction l as [|y l IH]; simpl; intros Hx.
  - by rewrite String.eqb_refl.
  - apply not_elem_of_cons in Hx as [Hxy Hx].
    destruct (String.eqb_spec x y); [done|]. by rewrite IH.
Qed.

Lemma remove_first_nodup (x : string) (l : list string) :
  NoDup l → x ∉ remove_first x l.
Proof.
  induction 1 as [|y l Hy Hnd IH]; simpl; [apply not_elem_of_nil|].
  destruct (String.eqb_spec x y) as [->|Hne]; [done|].
  apply not_elem_of_cons. done.
Qed.

Lemma remove_first_other (x k : string) (l : list string) :
  k ≠ x → k ∈ remove_first x l ↔ k ∈ l.
Proof.
  intros Hk. induction l as [|y l IH]; simpl; [done|].
  destruct (String.eqb_spec x y) as [->|Hne].
  - rewrite elem_of_cons. split; [by right|]. by intros [->|?].
  - rewrite !elem_of_cons, IH. done.
Qed.

(** X18.  The ban prompt toggles.  An id that was not banned is banned
    afterwards, nobody else's status changes, and entering the id again
    restores the ban list exactly; once banned, that user's [/start] gets
    the ban notice and nothing else.  An id that was banned (once) is free
    afterwards. *)
Theorem handle_admin_ban_toggles (py : PyStr)
    (ADMIN_ID : string) (txt : string) (d : Data) (ctx : UserData) :
  let uid := str_strip py txt in
  let r := handle_admin_ban py txt d ctx in
  (uid ∉ banned_users d →
   uid ∈ banned_users (data_of r) ∧
   data_of (handle_admin_ban py txt (data_of r) (ctx_of r)) = d ∧
   ∀ u c, user_id u = uid →
     start ADMIN_ID u (data_of r) c = (data_of r, c, [Reply BannedNotice])) ∧
  (uid ∈ banned_users d → NoDup (banned_users d) →
   uid ∉ banned_users (data_of r)) ∧
  (∀ k, k ≠ uid → k ∈ banned_users (data_of r) ↔ k ∈ banned_users d) ∧
  users (data_of r) = users d ∧ waiting_for (ctx_of r) = None.
Proof.
  cbv zeta. unfold handle_admin_ban, data_of, ctx_of.
  destruct (mem (str_strip py txt) (banned_users d)) eqn:Hm; cbn [fst snd].
  - apply mem_true in Hm. split; [done|]. split; [|split; [|done]].
    + intros _ Hnd. simpl. by apply remove_first_nodup.
    + intros k Hk. simpl. by apply remove_first_other.
  - assert (Hn : str_strip py txt ∉ banned_users d) by (rewrite <- mem_true; congruence).
    split; [|split; [done|split; [|done]]].
    + intros _. simpl.
      assert (Hin : str_strip py txt ∈ banned_users d ++ [str_strip py txt]) by set_solver.
      split; [done|]. split.
      * apply mem_true in Hin. rewrite Hin. simpl.
        rewrite remove_first_snoc by done. by destruct d.
      * intros u c Hu. unfold start, is_banned. simpl. rewrite Hu.
        apply mem_true in Hin. by rewrite Hin.
    + intros k Hk. simpl. rewrite elem_of_app, list_elem_of_singleton.
      split; [by intros [?|?]|by left].
Qed.

Lemma handle_admin_ban_toggles_witness :
  (str_strip AsciiText.methods " 3 " ∉ banned_users Scenario.befriended) ∧
  data_of (handle_admin_ban AsciiText.methods " 3 "
             (data_of (handle_admin_ban AsciiText.methods " 3 "
                         Scenario.befriended empty_user_data))
             (ctx_of (handle_admin_ban AsciiText.methods " 3 "
                        Scenario.befriended empty_user_data)))
  = Scenario.befriended.
Proof.
  assert (H : str_strip AsciiText.methods " 3 " ∉ banned_users Scenario.befriended).
  { rewrite <- mem_true. by vm_compute. }
  split; [exact H|].
  apply (proj1 (handle_admin_ban_toggles AsciiText.methods Scenario.admin " 3 "
                  Scenario.befriended
                  empty_user_data) H).
Defined.

(** X19.  Nobody but the administrator can touch the ban list: for any
    other user, no event of [event] changes it, whatever stage the cursor
    claims to be at; and [/admin] and the buttons [admin_panel],
    [admin_broadcast], [admin_view_user], [admin_ban] and [admin_back] do
    nothing at all for such a user.  (The buttons [admin_logs],
    [admin_clear_logs], [admin_stats], [admin_user_galleries_*],
    [admin_view_gallery_*] and [admin_export_*] are not among the events
    of [event].) *)
Theorem ban_list_is_admin_only (py : PyStr)
    (ADMIN_ID : string) (deliver : string -> option Z)
    (retract : string -> Z -> bool)
    (cache_locally : string -> string -> option string) (today : string)
    (u : Sender) (d : Data) (ctx : UserData) :
  user_id u ≠ ADMIN_ID →
  (∀ e, banned_users
          (data_of (handle py ADMIN_ID deliver retract cache_locally today u e d ctx))
        = banned_users d) ∧
  (∀ e, e ∈ [CmdAdmin; Button admin_panel_cb; Button admin_broadcast_cb;
             Button admin_view_user_cb; Button admin_ban_cb; Button admin_back_cb] →
        handle py ADMIN_ID deliver retract cache_locally today u e d ctx = (d, ctx, [])).
Proof.
  intros Hadm. apply String.eqb_neq in Hadm. split.
  - intros e. unfold data_of. destruct e as [| |cb|txt|c]; simpl.
    + unfold start. repeat (case_match; simpl; try done).
    + unfold admin_panel. by rewrite Hadm.
    + destruct cb; simpl; unfold admin_only; rewrite ?Hadm; try done.
      * unfold start_chat_request. repeat (case_match; simpl; try done).
      * unfold cancel_chat_request. repeat (case_match; simpl; try done).
    + unfold message_handler, handle_admin_broadcast. rewrite Hadm. simpl.
      destruct (waiting_for ctx) as [[]|]; simpl; try done.
      * unfold handle_friend_username. repeat (case_match; simpl; try done).
      * unfold handle_friend_nickname. repeat (case_match; simpl; try done).
      * unfold handle_file_name. by case_match.
      * unfold handle_file_comment. by case_match.
      * unfold handle_new_comment. repeat (case_match; simpl; try done).
    + unfold file_handler, handle_admin_broadcast. rewrite Hadm. simpl.
      case_bool_decide; [|done].
      unfold handle_file. repeat (case_match; simpl; try done).
  - intros e He.
    repeat (apply elem_of_cons in He as [->|He]);
      [..|by apply elem_of_nil in He]; simpl;
      unfold admin_panel, admin_only; by rewrite Hadm.
Qed.

Lemma ban_list_is_admin_only_witness :
  user_id Scenario.carol ≠ Scenario.admin ∧
  banned_users
    (data_of (handle AsciiText.methods Scenario.admin Scenario.online Scenario.retract_ok
                Scenario.no_cache "01.01.2025" Scenario.carol (TextMessage "2")
                Scenario.befriended (Scenario.awaiting admin_ban)))
  = banned_users Scenario.befriended.
Proof.
  assert (H : user_id Scenario.carol ≠ Scenario.admin) by (intros [=]).
  split; [exact H|].
  apply (proj1 (ban_list_is_admin_only AsciiText.methods Scenario.admin Scenario.online
                  Scenario.retract_ok Scenario.no_cache "01.01.2025"
                  Scenario.carol Scenario.befriended
                  (Scenario.awaiting admin_ban) H)).
Defined.




(** ** Removing items, the error log, export and statistics *)

(** X21.  Removing the item at an index that exists takes exactly that item
    out: the items before it keep their index, the later ones move down by
    one, other galleries are untouched, the cached file is released when
    there is one on disk, and the view shown afterwards lists the remaining
    items.  An index past the end is answered with "file not found" and
    nothing is saved; so removing the last item twice fails the second
    time. *)
Theorem delete_file_shifts (py : PyStr)
    (path_exists : string -> bool) (u : Sender) (f : string) (i : nat)
    (d : Data) (vd : ViewData) :
  let gid := gallery_id (user_id u) f in
  let r := delete_file py path_exists u f i d vd in
  (files_of gid d !! i = None → r = (d, vd, [LReply FileNotFoundAlert])) ∧
  (∀ item, files_of gid d !! i = Some item →
     files_of gid r.1.1 = take i (files_of gid d) ++ drop (S i) (files_of gid d) ∧
     (∀ j, (j < i)%nat → files_of gid r.1.1 !! j = files_of gid d !! j) ∧
     (∀ j, (i ≤ j)%nat → files_of gid r.1.1 !! j = files_of gid d !! S j) ∧
     S (length (files_of gid r.1.1)) = length (files_of gid d) ∧
     (∀ k, k ≠ gid → galleries r.1.1 !! k = galleries d !! k) ∧
     (∀ p, local_path item = Some p → p ≠ "" → path_exists p = true →
           RemoveFile p ∈ r.2) ∧
     LReply (GalleryView (username_or drug f d)
               (map (λ x, str_slice py 20 (name x)) (files_of gid r.1.1))) ∈ r.2 ∧
     (S i = length (files_of gid d) →
      delete_file py path_exists u f i r.1.1 r.1.2
      = (r.1.1, r.1.2, [LReply FileNotFoundAlert]))).
Proof.
  cbv zeta. unfold delete_file, files_of.
  destruct (galleries d !! gallery_id (user_id u) f) as [g|] eqn:Hg; [|done].
  destruct (files g !! i) as [item|] eqn:Hi.
  - split; [done|]. intros ? [= <-]. unfold view_gallery, files_of.
    cbn [fst snd galleries set_galleries]. rewrite !lookup_insert_eq.
    cbn [files].
    assert (Hlt : (i < length (files g))%nat) by (by eapply lookup_lt_Some).
    split; [apply delete_take_drop|].
    split; [intros j Hj; by apply list_lookup_delete_lt|].
    split; [intros j Hj; by apply list_lookup_delete_ge|].
    split; [rewrite length_delete by eauto; lia|].
    split; [intros k Hk; by rewrite lookup_insert_ne|].
    split.
    + intros p Hp Hne Hex. rewrite Hp, Hex, (truthy_Some p) by done.
      by left.
    + split.
      * apply elem_of_app. right. right. left.
      * intros Hlast.
        rewrite (proj2 (lookup_ge_None (delete i (files g)) i)); [done|].
        rewrite length_delete by eauto. lia.
  - split; [done|]. by intros ? [=].
Qed.

Lemma delete_file_shifts_witness :
  files_of (gallery_id "1" "2") Samples.one_item !! 0 = Some Samples.trip ∧
  files_of (gallery_id "1" "2")
    (delete_file AsciiText.methods (λ _, true) Scenario.alice "2" 0 Samples.one_item
       Samples.no_view).1.1
  = take 0 (files_of (gallery_id "1" "2") Samples.one_item)
      ++ drop 1 (files_of (gallery_id "1" "2") Samples.one_item).
Proof.
  assert (H : files_of (gallery_id "1" "2") Samples.one_item !! 0
              = Some Samples.trip) by reflexivity.
  split; [exact H|].
  apply (proj2 (delete_file_shifts AsciiText.methods (λ _, true) Scenario.alice "2" 0
                  Samples.one_item Samples.no_view) Samples.trip H).
Defined.

(** X22.  The error log is bounded: after [save_log] it has at most 50
    entries, the new entry is the last one, and the entries kept are the
    most recent ones in their order (only the oldest are dropped). *)
Theorem save_log_bounded (now error_text : string) (logs : Logs) :
  let logs' := save_log now error_text logs in
  length logs' = Nat.min 50 (S (length logs)) ∧
  last logs' = Some (now, error_text) ∧
  ∃ dropped, logs ++ [(now, error_text)] = dropped ++ logs' ∧
             length dropped = S (length logs) - 50.
Proof.
  cbv zeta. unfold save_log.
  set (l := logs ++ [(now, error_text)]).
  assert (Hl : length l = S (length logs)) by (unfold l; rewrite length_app; simpl; lia).
  split; [rewrite length_drop; lia|]. split.
  - assert (Hlast : last l = Some (now, error_text)) by apply last_snoc.
    rewrite <- (take_drop (length l - 50) l), last_app in Hlast.
    destruct (last (drop (length l - 50) l)) as [y|] eqn:E; [done|].
    apply last_None in E. apply (f_equal length) in E.
    rewrite length_drop in E. simpl in E. lia.
  - exists (take (length l - 50) l). split; [by rewrite take_drop|].
    rewrite length_take. lia.
Qed.

Lemma save_log_length (now e : string) (logs : Logs) :
  (length (save_log now e logs) ≤ 50)%nat.
Proof.
  unfold save_log. rewrite length_drop, length_app. simpl. lia.
Qed.

Lemma export_loop_spec (py : PyStr) (send_item : FileInfo -> option string)
    (now chat : string)
    (items : list FileInfo) (sent : nat) (logs : Logs) (out : list ledger_effect) :
  let r := export_loop py now send_item chat items sent logs out in
  let ok := filter (λ f, send_item f = None) items in
  r.1.1 = sent + length ok ∧
  r.2 = out ++ map (λ f, LSend chat (ExportItem f)) ok ∧
  (length ok = length items → r.1.2 = logs) ∧
  ((length ok < length items)%nat → (length r.1.2 ≤ 50)%nat).
Proof.
  cbv zeta. revert sent logs out.
  induction items as [|f items IH]; intros sent logs out; simpl.
  - rewrite app_nil_r. repeat split; [done|lia].
  - rewrite filter_cons.
    pose proof (length_filter (λ f, send_item f = None) items) as Hle.
    destruct (send_item f) as [e|] eqn:Hf.
    + rewrite decide_False by done.
      destruct (IH sent (save_log now ("Export error: " +:+ str_slice py 50 e) logs) out)
        as (H1 & H2 & H3 & H4).
      split; [done|]. split; [done|]. split; [simpl; lia|].
      intros _.
      destruct (decide (length (filter (λ f, send_item f = None) items)
                        = length items)) as [E|E].
      * rewrite (H3 E). apply save_log_length.
      * apply H4. lia.
    + rewrite decide_True by done.
      destruct (IH (S sent) logs (out ++ [LSend chat (ExportItem f)]))
        as (H1 & H2 & H3 & H4).
      split; [simpl; lia|]. split; [by rewrite H2, <- app_assoc|].
      split; [simpl; intros; apply H3; lia|]. simpl. intros. apply H4. lia.
Qed.

(** X23.  Export sends the gallery's items in their order, one message
    each, to the user who asked.  An item that cannot be sent is skipped
    and logged and does not stop the export: the messages are the header,
    the items that went through and a summary that counts them against the
    size of the gallery.  An empty gallery gets a single notice.  Nothing
    is saved to the document (the function does not return one), and the
    log changes only when an item failed. *)
Theorem export_gallery_report (py : PyStr)
    (now : string) (deliver : string -> option Z)
    (send_item : FileInfo -> option string)
    (u : Sender) (f : string) (d : Data) (logs : Logs) :
  is_Some (deliver (user_id u)) →
  let items := files_of (gallery_id (user_id u) f) d in
  let ok := filter (λ x, send_item x = None) items in
  let r := export_gallery py now deliver send_item u f d logs in
  (items = [] → r = (logs, [LReply ExportStarting; LSend (user_id u) ExportEmpty])) ∧
  (items ≠ [] →
   r.2 = LReply ExportStarting
           :: LSend (user_id u) (ExportHeader (username_or drug f d) (length items))
           :: map (λ x, LSend (user_id u) (ExportItem x)) ok
           ++ [LSend (user_id u) (ExportDone (length ok) (length items))] ∧
   (length ok ≤ length items)%nat ∧
   (length ok = length items → r.1 = logs) ∧
   ((length ok < length items)%nat → (length r.1 ≤ 50)%nat)).
Proof.
  intros [mid Hd]. cbv zeta. unfold export_gallery. rewrite Hd.
  destruct (files_of (gallery_id (user_id u) f) d) as [|x xs] eqn:Hitems.
  - split; [done|]. by intros [].
  - split; [done|]. intros _.
    pose proof (export_loop_spec py send_item now (user_id u) (x :: xs) 0 logs
                  [LReply ExportStarting;
                   LSend (user_id u)
                     (ExportHeader (username_or drug f d) (length (x :: xs)))])
      as (H1 & H2 & H3 & H4).
    destruct (export_loop py now send_item (user_id u) (x :: xs) 0 logs _)
      as [[sent logs'] out]. cbn [fst snd] in *.
    subst sent out. split; [by rewrite <- app_assoc|].
    split; [apply length_filter|]. done.
Qed.

Lemma export_gallery_report_witness :
  is_Some (Scenario.online (user_id Scenario.alice)) ∧
  files_of (gallery_id (user_id Scenario.alice) "2") Samples.two_items ≠ [] ∧
  (export_gallery AsciiText.methods "01.01.2025 10:00" Scenario.online (λ _, Some "gone")
     Scenario.alice "2" Samples.two_items []).2
  = [LReply ExportStarting; LSend "1" (ExportHeader "Bob" 2);
     LSend "1" (ExportDone 0 2)].
Proof.
  assert (H1 : is_Some (Scenario.online (user_id Scenario.alice))) by (by eexists).
  assert (H2 : files_of (gallery_id (user_id Scenario.alice) "2") Samples.two_items
               ≠ []) by (by vm_compute).
  split; [exact H1|]. split; [exact H2|].
  apply (proj2 (export_gallery_report AsciiText.methods "01.01.2025 10:00" Scenario.online
                  (λ _, Some "gone") Scenario.alice "2" Samples.two_items [] H1)
           H2).
Defined.

Lemma count_types_total (fs : list FileInfo) :
  length (filter (λ f, type f = photo) fs)
  + length (filter (λ f, type f = video) fs)
  + length (filter (λ f, type f = document) fs) = length fs.
Proof.
  induction fs as [|f fs IH]; [done|].
  rewrite !filter_cons. destruct (type f); simpl; lia.
Qed.

(** X24.  In the statistics the three counts by kind of item add up to the
    total number of items, whatever the galleries hold. *)
Theorem admin_show_stats_adds_up (d : Data) :
  ∃ nu nb ng nf photos videos docs chats,
    admin_show_stats d = [LReply (StatsView nu nb ng nf photos videos docs chats)] ∧
    photos + videos + docs = nf ∧
    nu = length (users d) ∧ nb = length (banned_users d) ∧
    ng = size (galleries d) ∧ (2 * chats ≤ size (active_chats d))%nat ∧
    (galleries d = ∅ → nf = 0).
Proof.
  unfold admin_show_stats. do 8 eexists. split; [done|].
  split; [|split; [done|split; [done|split; [done|split]]]].
  - unfold count_type, total_files.
    induction (gallery_values d) as [|g gs IH]; simpl; [done|].
    pose proof (count_types_total (files g)). lia.
  - assert (H := Nat.div_mod_eq (size (active_chats d)) 2). lia.
  - intros E. unfold gallery_values. rewrite E, map_to_list_empty. done.
Qed.

Lemma admin_show_stats_adds_up_witness :
  galleries Scenario.registered = ∅ ∧
  ∃ nu nb ng nf photos videos docs chats,
    admin_show_stats Scenario.registered
    = [LReply (StatsView nu nb ng nf photos videos docs chats)] ∧
    photos + videos + docs = nf ∧
    nu = length (users Scenario.registered) ∧
    nb = length (banned_users Scenario.registered) ∧
    ng = size (galleries Scenario.registered) ∧
    (2 * chats ≤ size (active_chats Scenario.registered))%nat ∧
    (galleries Scenario.registered = ∅ → nf = 0).
Proof.
  split; [reflexivity|].
  apply (admin_show_stats_adds_up Scenario.registered).
Defined.

(** ** Buttons and menus *)

Fixpoint lacks (a : ascii) (s : string) : bool :=
  match s with
  | EmptyString => true
  | String c s' => negb (Ascii.eqb a c) && lacks a s'
  end.

Lemma drop_prefix_app (old s : string) : drop_prefix old (old +:+ s) = Some s.
Proof.
  induction old as [|a old IH]; simpl; [by destruct s|].
  by rewrite Ascii.eqb_refl.
Qed.

Lemma remove_all_go_clean (fuel : nat) (a : ascii) (old s : string) :
  lacks a s = true → remove_all_go fuel (String a old) s = s.
Proof.
  revert s. induction fuel as [|fuel IH]; intros [|c s]; simpl; try done.
  intros [Hc Hs]%andb_prop. apply negb_true_iff in Hc. rewrite Hc.
  by rewrite IH.
Qed.

Lemma remove_all_prefixed (a : ascii) (old s : string) :
  lacks a s = true → remove_all (String a old) (String a old +:+ s) = s.
Proof.
  intros Hs. unfold remove_all.
  change (remove_all_go (S ?n) ?o ?x)
    with (match drop_prefix o x with
          | Some rest => remove_all_go n o rest
          | None => match x with
                    | EmptyString => EmptyString
                    | String c s' => String c (remove_all_go n o s')
                    end
          end).
  rewrite drop_prefix_app. by apply remove_all_go_clean.
Qed.

Lemma prefix_empty (s : string) : String.prefix "" s = true.
Proof. by destruct s. Qed.

Lemma all_digits_lacks (a : ascii) (s : string) :
  (nat_of_ascii a <? 48)%nat || (57 <? nat_of_ascii a)%nat = true →
  all_digits s = true → lacks a s = true.
Proof.
  intros Ha. induction s as [|c s IH]; [done|]. cbn [all_digits lacks].
  intros [[H1 H2]%andb_prop H3]%andb_prop. rewrite IH by done.
  rewrite andb_true_r. apply negb_true_iff, Ascii.eqb_neq. intros ->.
  apply Nat.leb_le in H1, H2.
  apply orb_prop in Ha as [Ha|Ha]; apply Nat.ltb_lt in Ha; lia.
Qed.

Lemma prefix_split (p s : string) :
  String.prefix p s = true → ∃ rest, s = p +:+ rest.
Proof.
  revert s. induction p as [|a p IH]; intros s; [by exists s|].
  destruct s as [|b s]; simpl; [done|].
  destruct (ascii_dec a b) as [->|]; [|done].
  intros [rest ->]%IH. by exists rest.
Qed.

Ltac route_hit H :=
  unfold route, button_chain; simpl;
  rewrite prefix_empty, remove_all_prefixed by (by apply all_digits_lacks);
  done.

(** X25.  Button data survives the round trip: for a user id made of
    digits, the data that the bot puts on a button ([prefix + id]) reaches
    the branch of that prefix (no earlier test of the chain catches it)
    and the argument cut out with [replace] is the id again. *)
Theorem route_round_trip (id : string) :
  all_digits id = true →
  ∀ p mk,
    (p, mk) ∈ [("skip_comment_", skip_comment); ("retry_comment_", retry_comment);
               ("add_file_", add_file); ("accept_invite_", accept_invite_cb);
               ("decline_invite_", decline_invite_cb);
               ("rename_friend_", rename_friend); ("start_chat_", start_chat);
               ("cancel_chat_request_", cancel_chat_request_cb);
               ("accept_chat_", accept_chat_cb); ("decline_chat_", decline_chat_cb);
               ("end_chat_", end_chat_cb)] →
    route (p +:+ id) = Some (Prefixed p id) ∧
    callback_of (Prefixed p id) = Some (mk id).
Proof.
  intros H p mk Hin.
  repeat (apply elem_of_cons in Hin as [[= -> ->]|Hin]);
    [..|by apply elem_of_nil in Hin];
    (split; [route_hit H|done]).
Qed.

Lemma route_round_trip_witness :
  all_digits "4217" = true ∧
  route ("accept_chat_" +:+ "4217") = Some (Prefixed "accept_chat_" "4217") ∧
  callback_of (Prefixed "accept_chat_" "4217") = Some (accept_chat_cb "4217").
Proof.
  split; [reflexivity|].
  apply (route_round_trip "4217" eq_refl "accept_chat_" accept_chat_cb).
  do 8 right. left.
Defined.

(** X26.  The sort buttons are dead: [back_to_gallery] puts six buttons
    with data [sort_gallery_...] on its keyboard, and no data that starts
    with [sort_gallery_] matches any test of [button_handler], so pressing
    them does nothing.  The other fixed buttons of that keyboard reach
    their branches. *)
Theorem sort_buttons_unhandled (friend_id : string) (items : list FileInfo) :
  (∀ s, route ("sort_gallery_" +:+ s) = None) ∧
  back_to_gallery_keyboard friend_id items !! 1
  = Some ["sort_gallery_" +:+ friend_id +:+ "_date_desc";
          "sort_gallery_" +:+ friend_id +:+ "_date_asc";
          "sort_gallery_" +:+ friend_id +:+ "_name_asc";
          "sort_gallery_" +:+ friend_id +:+ "_name_desc"] ∧
  back_to_gallery_keyboard friend_id items !! 2
  = Some ["sort_gallery_" +:+ friend_id +:+ "_author";
          "sort_gallery_" +:+ friend_id +:+ "_default";
          "export_gallery_" +:+ friend_id] ∧
  (∀ row data_str,
     row ∈ back_to_gallery_keyboard friend_id items → data_str ∈ row →
     String.prefix "sort_gallery_" data_str = true → route data_str = None) ∧
  route "gallery" = Some (Exact "gallery") ∧
  (all_digits friend_id = true →
   route ("add_file_" +:+ friend_id) = Some (Prefixed "add_file_" friend_id) ∧
   route ("export_gallery_" +:+ friend_id)
   = Some (Prefixed "export_gallery_" friend_id)).
Proof.
  assert (Hdead : ∀ s, route ("sort_gallery_" +:+ s) = None).
  { intros s. unfold route, button_chain. by simpl. }
  split; [done|]. split; [done|]. split; [done|]. split; [|split; [done|]].
  - intros row data_str _ _ [rest ->]%prefix_split. apply Hdead.
  - intros H. split; route_hit H.
Qed.

Lemma sort_buttons_unhandled_witness :
  all_digits "2" = true ∧
  route ("sort_gallery_" +:+ "2" +:+ "_date_desc") = None ∧
  route ("add_file_" +:+ "2") = Some (Prefixed "add_file_" "2").
Proof.
  split; [reflexivity|]. split.
  - apply (proj1 (sort_buttons_unhandled "2" [])).
  - apply (proj2 (proj2 (proj2 (proj2 (proj2 (sort_buttons_unhandled "2" [])))))
             eq_refl).
Defined.

Lemma username_or_set_same (dflt k uid : string) (r r' : User) (d : Data) :
  od_get uid (users d) = Some r → username r' = username r →
  username_or dflt k (set_users (od_set uid r' (users d)) d) = username_or dflt k d.
Proof.
  intros Hr Hu. unfold username_or. simpl. rewrite od_get_set.
  case_decide as E; [|done]. subst. by rewrite Hr, Hu.
Qed.

(** X27.  An alias is private to its owner.  A nickname of at most 20
    characters is stored under the owner's record only: the owner's gallery
    menu shows the friend under the alias, everybody else's menu is as
    before, and handles, friend lists and other users' records do not
    change.  An alias that is empty after trimming is stored too, but the
    menu then falls back to the friend's handle. *)
Theorem nickname_is_private (py : PyStr)
    (u : Sender) (txt f : string) (d : Data) (ctx : UserData) (owner : User) :
  od_get (user_id u) (users d) = Some owner → rename_friend_id ctx = Some f →
  (str_len py (str_strip py txt) ≤ 20)%nat →
  let d' := data_of (handle_friend_nickname py u txt d ctx) in
  (∃ owner', od_get (user_id u) (users d') = Some owner' ∧
             nicknames owner' !! f = Some (str_strip py txt) ∧
             username owner' = username owner ∧ friends owner' = friends owner) ∧
  (∀ k, k ≠ user_id u → od_get k (users d') = od_get k (users d)) ∧
  (f ∈ friends owner → str_strip py txt ≠ "" →
   FriendRow (str_strip py txt) f ∈ show_gallery_menu u d') ∧
  (f ∈ friends owner → str_strip py txt = "" →
   FriendRow (username_or ("user_" +:+ f) f d) f ∈ show_gallery_menu u d') ∧
  (∀ v, user_id v ≠ user_id u → show_gallery_menu v d' = show_gallery_menu v d) ∧
  galleries d' = galleries d ∧ invites d' = invites d.
Proof.
  intros Hown Hf Hlen. cbv zeta.
  unfold handle_friend_nickname, data_of.
  rewrite (proj2 (Nat.ltb_ge _ _)) by done. rewrite Hown, Hf. cbn [fst default].
  unfold id.
  set (owner' := mkUser (username owner) (friends owner)
                   (<[f := str_strip py txt]> (nicknames owner))).
  set (d' := set_users (od_set (user_id u) owner' (users d)) d).
  assert (Hget : od_get (user_id u) (users d') = Some owner')
    by apply od_get_set_eq.
  assert (Hname : ∀ dflt k, username_or dflt k d' = username_or dflt k d).
  { intros. by apply (username_or_set_same _ _ _ owner). }
  split; [exists owner'; split; [done|]; split; [apply lookup_insert_eq|done]|].
  split; [intros k Hk; by apply od_get_set_ne|].
  assert (Hrow : ∀ label, f ∈ friends owner →
            friend_label (nicknames owner') f d' = label →
            FriendRow label f ∈ show_gallery_menu u d').
  { intros label Hin <-. unfold show_gallery_menu. rewrite Hget.
    apply elem_of_cons. right. apply elem_of_app. left.
    apply list_elem_of_fmap. by exists f. }
  split; [|split; [|split; [|done]]].
  - intros Hin Hne. apply Hrow; [done|]. unfold friend_label. simpl.
    rewrite lookup_insert_eq. by destruct (str_strip py txt).
  - intros Hin He. apply Hrow; [done|]. unfold friend_label. simpl.
    rewrite lookup_insert_eq, He. apply Hname.
  - intros v Hv. unfold show_gallery_menu.
    replace (od_get (user_id v) (users d')) with (od_get (user_id v) (users d))
      by (symmetry; by apply od_get_set_ne).
    destruct (od_get (user_id v) (users d)) as [rv|]; [|done].
    f_equal. f_equal. apply map_ext. intros k. unfold friend_label.
    by rewrite Hname.
Qed.

Lemma nickname_is_private_witness :
  let ctx := set_rename_friend_id (Some "2") (Scenario.awaiting friend_nickname) in
  od_get (user_id Scenario.alice) (users Scenario.befriended)
  = Some (mkUser (Some "alice") ["2"] ∅) ∧
  rename_friend_id ctx = Some "2" ∧
  (str_len AsciiText.methods (str_strip AsciiText.methods " Bobby ") ≤ 20)%nat ∧
  "2" ∈ friends (mkUser (Some "alice") ["2"] ∅) ∧ str_strip AsciiText.methods " Bobby " ≠ "" ∧
  FriendRow (str_strip AsciiText.methods " Bobby ") "2"
    ∈ show_gallery_menu Scenario.alice
        (data_of (handle_friend_nickname AsciiText.methods Scenario.alice " Bobby "
                    Scenario.befriended ctx)).
Proof.
  cbv zeta.
  assert (H1 : (str_len AsciiText.methods (str_strip AsciiText.methods " Bobby ")
                ≤ 20)%nat) by (vm_compute; lia).
  assert (H2 : "2" ∈ friends (mkUser (Some "alice") ["2"] ∅)) by (by left).
  assert (H3 : str_strip AsciiText.methods " Bobby " ≠ "") by (by vm_compute).
  split; [reflexivity|]. split; [reflexivity|]. split; [exact H1|].
  split; [exact H2|]. split; [exact H3|].
  apply (nickname_is_private AsciiText.methods Scenario.alice " Bobby " "2" Scenario.befriended
           (set_rename_friend_id (Some "2") (Scenario.awaiting friend_nickname))
           (mkUser (Some "alice") ["2"] ∅) eq_refl eq_refl H1); [exact H2|exact H3].
Defined.
